(** * dom-to-image server-side fallback renderer: a shallow embedding

    The development follows the repository's files:
    - [src/utils.js], [src/renderer.js]: the dimension heuristic
      ([extractSvgDimensions]) and the page renderer ([renderSvgFullPage]);
    - [src/safari-fallback.js]: the client transport helper
      ([svgDataUriToString]);
    - [examples/fallback-server.js]: the [POST /render] handler.

    JavaScript strings are modelled as Rocq [string]s (byte strings; text
    outside ASCII is its UTF-8 encoding).  JavaScript numbers are modelled by
    [JsNum]: a rational for every finite value, plus the three non-finite
    values.  [Math.max], [Math.ceil] and [Math.round] are exact on finite
    doubles, so the rational model agrees with the code there; the rounding
    of a double product ([quality * 100]) and of [parseFloat] to the nearest
    double is not represented.

    The code drives a browser engine, the file system and the console.
    These collaborators are a record [Env] of answers, one field per call
    the code makes, and every call is recorded in the [World], the list of
    events so far.  Effectful code is written in the monad [M] of worlds and
    thrown errors, with [try_finally] and [try_catch] for the two
    exception constructs the code uses. *)

From Stdlib Require Import String Ascii List Bool Arith ZArith QArith Qround Qminmax Lia.
Import ListNotations.

Open Scope string_scope.

(* ================================================================== *)
(** ** JavaScript values *)
(* ================================================================== *)

Inductive JsNum : Type :=
| Num (q : Q)
| NaN
| PosInf
| NegInf.

(** JSON scalars such as arrive in a parsed request body. *)
Inductive JsValue : Type :=
| JUndefined
| JNull
| JBool (b : bool)
| JNumber (n : JsNum)
| JString (s : string).

Definition Qis_zero (q : Q) : bool := (Qnum q =? 0)%Z.

(** [ToBoolean] on numbers: [0] and [NaN] are falsy. *)
Definition num_truthy (n : JsNum) : bool :=
  match n with
  | Num q => negb (Qis_zero q)
  | NaN => false
  | PosInf | NegInf => true
  end.

Definition str_truthy (s : string) : bool :=
  match s with
  | EmptyString => false
  | String _ _ => true
  end.

Definition truthy (v : JsValue) : bool :=
  match v with
  | JUndefined | JNull => false
  | JBool b => b
  | JNumber n => num_truthy n
  | JString s => str_truthy s
  end.

(** [x || d] for an optional numeric option field. *)
Definition num_or (x : option JsNum) (d : JsNum) : JsNum :=
  match x with
  | Some n => if num_truthy n then n else d
  | None => d
  end.

(** [x || d] for an optional string option field. *)
Definition str_or (x : option string) (d : string) : string :=
  match x with
  | Some s => if str_truthy s then s else d
  | None => d
  end.

Definition Number_isFinite (n : JsNum) : bool :=
  match n with
  | Num _ => true
  | _ => false
  end.

(** [n > 0] *)
Definition num_gt0 (n : JsNum) : bool :=
  match n with
  | Num q => (0 <? Qnum q)%Z
  | PosInf => true
  | NaN | NegInf => false
  end.

(** [n * 100] *)
Definition num_times100 (n : JsNum) : JsNum :=
  match n with
  | Num q => Num (q * 100)
  | NaN => NaN
  | PosInf => PosInf
  | NegInf => NegInf
  end.

(** [Math.round]: the nearest integer, ties towards +infinity. *)
Definition Math_round (n : JsNum) : JsNum :=
  match n with
  | Num q => Num (inject_Z (Qfloor (q + (1 # 2))))
  | other => other
  end.

(** [Math.max(x, 1)] and [Math.ceil] on the finite values a bounding box
    holds. *)
Definition Math_max1 (x : Q) : Q := Qmax x 1.
Definition Math_ceil (x : Q) : Z := Qceiling x.

(* ================================================================== *)
(** ** String helpers *)
(* ================================================================== *)

Definition dquote : ascii := "034"%char.
Definition dq : string := String dquote EmptyString.

Fixpoint strip_prefix (p s : string) : option string :=
  match p with
  | EmptyString => Some s
  | String a p' =>
      match s with
      | EmptyString => None
      | String b s' => if Ascii.eqb a b then strip_prefix p' s' else None
      end
  end.

(** [s.startsWith(p)] *)
Definition startsWith (s p : string) : bool :=
  match strip_prefix p s with
  | Some _ => true
  | None => false
  end.

Definition is_digit (c : ascii) : bool :=
  ((48 <=? nat_of_ascii c) && (nat_of_ascii c <=? 57))%nat.

Definition is_upper (c : ascii) : bool :=
  ((65 <=? nat_of_ascii c) && (nat_of_ascii c <=? 90))%nat.

Definition lower_char (c : ascii) : ascii :=
  if is_upper c then ascii_of_nat (nat_of_ascii c + 32) else c.

(** [s.toLowerCase()]; only the letters A-Z change.  The few characters
    outside ASCII whose lower case is an ASCII letter give k or i, which
    occur in none of the format names compared against below. *)
Fixpoint toLowerCase (s : string) : string :=
  match s with
  | EmptyString => EmptyString
  | String c s' => String (lower_char c) (toLowerCase s')
  end.

(** [list.includes(x)] on strings *)
Fixpoint includes (l : list string) (x : string) : bool :=
  match l with
  | [] => false
  | y :: l' => String.eqb y x || includes l' x
  end.

(** [s.split(sep)] for a one-character separator. *)
Fixpoint String_split (sep : ascii) (s : string) : list string :=
  match s with
  | EmptyString => [EmptyString]
  | String c s' =>
      if Ascii.eqb c sep then EmptyString :: String_split sep s'
      else match String_split sep s' with
           | [] => [String c EmptyString]
           | h :: t => String c h :: t
           end
  end.

(** [s.replace(/[:.]/g, '-')] *)
Fixpoint replace_colon_dot (s : string) : string :=
  match s with
  | EmptyString => EmptyString
  | String c s' =>
      String (if Ascii.eqb c ":" || Ascii.eqb c "." then "-"%char else c)
             (replace_colon_dot s')
  end.

(* ================================================================== *)
(** ** DimensionHeuristic: [extractSvgDimensions] (utils.js, renderer.js) *)
(* ================================================================== *)

(** Greedy [\d+]: the longest prefix of digits and what follows it. *)
Fixpoint take_digits (s : string) : string * string :=
  match s with
  | EmptyString => (EmptyString, EmptyString)
  | String c s' =>
      if is_digit c
      then let (d, r) := take_digits s' in (String c d, r)
      else (EmptyString, s)
  end.

(** The optional double quote in front of the value. *)
Definition skip_quote (s : string) : string :=
  match s with
  | String c r => if Ascii.eqb c dquote then r else s
  | EmptyString => s
  end.

(** Capture group 1: a greedy run of one or more digits, then optionally a
    dot and a greedy run of one or more digits. *)
Definition capture_numeral (s : string) : option string :=
  let (ds, r3) := take_digits s in
  match ds with
  | EmptyString => None
  | String _ _ =>
      match r3 with
      | String c r4 =>
          if Ascii.eqb c "."
          then let (fs, _) := take_digits r4 in
               match fs with
               | EmptyString => Some ds
               | String _ _ => Some (ds ++ "." ++ fs)
               end
          else Some ds
      | EmptyString => Some ds
      end
  end.

(** One attempt of the pattern of [extractSvgDimensions] anchored at the
    head of [s]: the attribute name and an equals sign, an optional double
    quote, group 1, an optional double quote.  The result is capture group 1.
    After at least one digit has matched everything that follows in the
    pattern is optional, and a quote given back by the optional quote cannot
    start the digit run, so the greedy attempt is the only one that can
    succeed. *)
Definition match_here (attr s : string) : option string :=
  match strip_prefix (attr ++ "=") s with
  | None => None
  | Some r1 => capture_numeral (skip_quote r1)
  end.

(** [s.match(re)] without the [g] flag: the leftmost position at which the
    pattern matches. *)
Fixpoint regex_search (attr s : string) : option string :=
  match match_here attr s with
  | Some cap => Some cap
  | None =>
      match s with
      | EmptyString => None
      | String _ s' => regex_search attr s'
      end
  end.

Definition digit_val (c : ascii) : Z := Z.of_nat (nat_of_ascii c - 48).

Fixpoint digits_value (acc : Z) (s : string) : Z :=
  match s with
  | EmptyString => acc
  | String c s' => digits_value (acc * 10 + digit_val c) s'
  end.

(** [parseFloat] on the strings capture group 1 can hold: a run of digits,
    optionally followed by a dot and a run of digits. *)
Definition parseFloat (s : string) : JsNum :=
  let (ip, r) := take_digits s in
  match ip with
  | EmptyString => NaN
  | String _ _ =>
      match r with
      | String "."%char f =>
          let (fp, _) := take_digits f in
          let scale := Z.pow 10 (Z.of_nat (String.length fp)) in
          Num (Qmake (digits_value 0 ip * scale + digits_value 0 fp)
                     (Z.to_pos scale))
      | _ => Num (inject_Z (digits_value 0 ip))
      end
  end.

Record Dimensions : Type := mkDimensions {
  dim_width : JsNum;
  dim_height : JsNum
}.

Definition extractSvgDimensions (svgString : string) : Dimensions :=
  let widthMatch := regex_search "width" svgString in
  let heightMatch := regex_search "height" svgString in
  {| dim_width := match widthMatch with
                  | Some cap => parseFloat cap
                  | None => Num 300
                  end;
     dim_height := match heightMatch with
                   | Some cap => parseFloat cap
                   | None => Num 150
                   end |}.

(* ================================================================== *)
(** ** FallbackTransport: [svgDataUriToString] (safari-fallback.js) *)
(* ================================================================== *)

Inductive UriToken : Type :=
| Lit (c : ascii)
| Esc (b : nat).

Definition hex_val (c : ascii) : option nat :=
  let n := nat_of_ascii c in
  if ((48 <=? n) && (n <=? 57))%nat then Some (n - 48)%nat
  else if ((65 <=? n) && (n <=? 70))%nat then Some (n - 55)%nat
  else if ((97 <=? n) && (n <=? 102))%nat then Some (n - 87)%nat
  else None.

(** First pass of [decodeURIComponent]: every percent sign must start an
    escape of two hexadecimal digits; [None] stands for the [URIError]. *)
Fixpoint uri_tokens (s : string) : option (list UriToken) :=
  match s with
  | EmptyString => Some []
  | String c s1 =>
      if Ascii.eqb c "%" then
        match s1 with
        | String h (String l s3) =>
            match hex_val h, hex_val l with
            | Some a, Some b =>
                option_map (cons (Esc (16 * a + b))) (uri_tokens s3)
            | _, _ => None
            end
        | _ => None
        end
      else option_map (cons (Lit c)) (uri_tokens s1)
  end.

Definition between (lo x hi : nat) : bool := ((lo <=? x) && (x <=? hi))%nat.

(** Second pass: an escaped byte of 128 or more starts a UTF-8 sequence
    whose continuation bytes must all be escapes and must form a well-formed
    encoding.  [need] counts the continuation bytes still expected; [lo] and
    [hi] bound the next one.  The decoded text is kept in UTF-8, so the bytes
    of a sequence are emitted as they are. *)
Fixpoint utf8_check (need lo hi : nat) (ts : list UriToken) : option string :=
  match ts with
  | [] => if (need =? 0)%nat then Some EmptyString else None
  | Lit c :: ts' =>
      if (need =? 0)%nat then option_map (String c) (utf8_check 0 0 0 ts')
      else None
  | Esc b :: ts' =>
      let emit r := option_map (String (ascii_of_nat b)) r in
      if (need =? 0)%nat then
        if (b <? 128)%nat then emit (utf8_check 0 0 0 ts')
        else if between 194 b 223 then emit (utf8_check 1 128 191 ts')
        else if (b =? 224)%nat then emit (utf8_check 2 160 191 ts')
        else if between 225 b 236 || between 238 b 239
             then emit (utf8_check 2 128 191 ts')
        else if (b =? 237)%nat then emit (utf8_check 2 128 159 ts')
        else if (b =? 240)%nat then emit (utf8_check 3 144 191 ts')
        else if between 241 b 243 then emit (utf8_check 3 128 191 ts')
        else if (b =? 244)%nat then emit (utf8_check 3 128 143 ts')
        else None
      else if between lo b hi then emit (utf8_check (need - 1) 128 191 ts')
      else None
  end.

(** [decodeURIComponent]; [None] when it throws. *)
Definition decodeURIComponent (s : string) : option string :=
  match uri_tokens s with
  | Some ts => utf8_check 0 0 0 ts
  | None => None
  end.

Definition svgDataUriToString (svgDataUri : string) : string :=
  if negb (startsWith svgDataUri "data:image/svg+xml") then svgDataUri
  else
    (* [split(',')[1]] is [undefined] when there is no comma, and
       [decodeURIComponent(undefined)] decodes the text of that word. *)
    let svgString := nth_error (String_split "," svgDataUri) 1 in
    let text := match svgString with
                | Some s => s
                | None => "undefined"
                end in
    match decodeURIComponent text with
    | Some decoded => decoded
    | None => text
    end.

(* ================================================================== *)
(** ** The world the renderer acts on *)
(* ================================================================== *)

(** A thrown JavaScript error: [error.constructor.name] and
    [error.message]. *)
Record Error : Type := mkError {
  err_name : string;
  err_message : string
}.

Inductive Result (A : Type) : Type :=
| Ok (a : A)
| Err (e : Error).
Arguments Ok {A} a.
Arguments Err {A} e.

Definition Buffer : Type := list Byte.byte.

Inductive FileData : Type :=
| Utf8Text (s : string)
| Bytes (b : Buffer).

(** [getBoundingClientRect()]: finite, as laid out by the engine. *)
Record Rect : Type := mkRect {
  rect_width : Q;
  rect_height : Q
}.

(** The element tree of a loaded page. *)
#[warnings="-register-all"]
Inductive Element : Type :=
| Elem (tagName : string) (rect : Rect) (children : list Element).

Definition tag_of (e : Element) : string :=
  match e with Elem t _ _ => t end.

Definition rect_of (e : Element) : Rect :=
  match e with Elem _ r _ => r end.

Definition children_of (e : Element) : list Element :=
  match e with Elem _ _ cs => cs end.

(** [querySelector(tag)] with a type selector: the first element in tree
    order (pre-order, depth first) with that tag. *)
Fixpoint querySelector (tag : string) (e : Element) : option Element :=
  match e with
  | Elem t _ cs =>
      if String.eqb t tag then Some e
      else (fix first (l : list Element) : option Element :=
              match l with
              | [] => None
              | c :: l' =>
                  match querySelector tag c with
                  | Some x => Some x
                  | None => first l'
                  end
              end) cs
  end.

(** The argument of [page.screenshot]. *)
Record ScreenshotOptions : Type := mkScreenshotOptions {
  shot_type : string;
  shot_fullPage : bool;
  shot_omitBackground : bool;
  shot_quality : option JsNum
}.

(** What a call leaves behind, newest first. *)
Inductive Event : Type :=
| EvLaunch
| EvNewPage
| EvMkdir (dir : string)
| EvWriteFile (path : string) (data : FileData)
| EvConsoleLog
| EvConsoleError
| EvSetContent (html : string) (timeout : JsNum)
| EvSetViewport (w h : Z) (deviceScaleFactor : JsNum)
| EvScreenshot (opts : ScreenshotOptions)
| EvClose.

Definition World : Type := list Event.

(** The collaborators of the code: the Puppeteer engine, the file system,
    the clock and the number conversions of the platform.  Each field fixes
    what the collaborator answers; [None] is a call that returns normally,
    [Some e] one that throws [e]. *)
Record Env : Type := mkEnv {
  puppeteer_installed : bool;
  launch_outcome : option Error;
  newPage_outcome : option Error;
  close_outcome : option Error;
  setContent_outcome : string -> JsNum -> option Error;
  document_of : string -> Element;
  setViewport_outcome : Z -> Z -> JsNum -> option Error;
  screenshot_outcome :
    string -> Z -> Z -> JsNum -> ScreenshotOptions -> Result Buffer;
  project_root : string;
  existsSync : string -> bool;
  mkdirSync_outcome : string -> option Error;
  writeFile_outcome : string -> FileData -> option Error;
  now_iso : string;
  string_to_number : string -> JsNum;
  number_to_string : JsNum -> string
}.

(* ------------------------------------------------------------------ *)
(** *** A monad of effects and exceptions *)

Definition M (A : Type) : Type := World -> Result A * World.

Definition ret {A : Type} (a : A) : M A := fun w => (Ok a, w).

Definition throw {A : Type} (e : Error) : M A := fun w => (Err e, w).

Definition bind {A B : Type} (m : M A) (k : A -> M B) : M B :=
  fun w =>
    match m w with
    | (Ok a, w') => k a w'
    | (Err e, w') => (Err e, w')
    end.

Notation "'let*' x ':=' m 'in' k" := (bind m (fun x => k))
  (at level 10, x name, m at level 100, k at level 200).
Notation "m ';;' k" := (bind m (fun _ => k))
  (at level 100, k at level 200, right associativity).

(** An effect that always completes. *)
Definition emit (ev : Event) : M unit := fun w => (Ok tt, ev :: w).

(** A call on a collaborator: recorded, then it returns or throws. *)
Definition call (ev : Event) (outcome : option Error) : M unit :=
  fun w =>
    match outcome with
    | None => (Ok tt, ev :: w)
    | Some e => (Err e, ev :: w)
    end.

Definition when (b : bool) (m : M unit) : M unit :=
  if b then m else ret tt.

(** [try { body } finally { fin }]: [fin] runs on both exits, and an error
    thrown by [fin] replaces the outcome of [body]. *)
Definition try_finally {A : Type} (body : M A) (fin : M unit) : M A :=
  fun w =>
    match body w with
    | (r, w1) =>
        match fin w1 with
        | (Ok _, w2) => (r, w2)
        | (Err e, w2) => (Err e, w2)
        end
    end.

(** [try { body } catch (error) { handler }] *)
Definition try_catch {A : Type} (body : M A) (handler : Error -> M A) : M A :=
  fun w =>
    match body w with
    | (Ok a, w1) => (Ok a, w1)
    | (Err e, w1) => handler e w1
    end.

(* ================================================================== *)
(** ** PageRenderer: [renderSvgFullPage] (renderer.js) *)
(* ================================================================== *)

Record RenderOptions : Type := mkRenderOptions {
  opt_outputType : option string;
  opt_outputPath : option string;
  opt_quality : option JsNum;
  opt_deviceScaleFactor : option JsNum;
  opt_timeout : option JsNum
}.

Record RenderResult : Type := mkRenderResult {
  res_buffer : Buffer;
  res_width : Z;
  res_height : Z;
  res_format : string;
  res_path : option string;
  res_debugPath : option string
}.

Record BoundingBox : Type := mkBoundingBox {
  box_width : Q;
  box_height : Q
}.

(** [initPuppeteer]: [require('puppeteer')], or the error with the message
    [notInstalled]. *)
Definition initPuppeteer_with (notInstalled : string) (E : Env) : M unit :=
  if puppeteer_installed E then ret tt
  else throw (mkError "Error" notInstalled).

Definition initPuppeteer (E : Env) : M unit :=
  initPuppeteer_with "Puppeteer is not installed.
Run: npm install puppeteer" E.

Definition htmlStyle : string :=
  "<!DOCTYPE html>
<html>
<head>
<meta charset=" ++ dq ++ "UTF-8" ++ dq ++ " />
<meta name=" ++ dq ++ "viewport" ++ dq ++ " content=" ++ dq
  ++ "width=device-width, initial-scale=1.0" ++ dq ++ " />
<style>
* {
  margin: 0;
  padding: 0;
  box-sizing: border-box;
}
html, body {
  width: 100%;
  height: 100%;
  background: transparent;
  display: flex;
  align-items: center;
  justify-content: center;
  overflow: hidden;
}
svg {
  display: block;
  max-width: 100vw;
  max-height: 100vh;
}
</style>
</head>
<body>".

Definition html_of (svgString : string) : string :=
  htmlStyle ++ svgString ++ "</body>
</html>".

(** [path.join(dir, name)] for a directory without a trailing separator. *)
Definition path_join (dir name : string) : string := dir ++ "/" ++ name.

Definition tempDir (E : Env) : string := path_join (project_root E) "temp".

Definition timestamp (E : Env) : string := replace_colon_dot (now_iso E).

(** The function passed to [page.evaluate]; [notFound] is the message of
    the error it throws. *)
Definition measure (notFound : string) (doc : Element) : M BoundingBox :=
  match querySelector "svg" doc with
  | None => throw (mkError "Error" notFound)
  | Some svg =>
      let rect := rect_of svg in
      ret {| box_width := Math_max1 (rect_width rect);
             box_height := Math_max1 (rect_height rect) |}
  end.

(** The [screenshotOptions] object, with [quality] set for [jpeg] only. *)
Definition screenshotOptions_of (outputType : string) (options : RenderOptions)
  : ScreenshotOptions :=
  {| shot_type := outputType;
     shot_fullPage := true;
     shot_omitBackground := true;
     shot_quality :=
       if String.eqb outputType "jpeg"
       then Some (Math_round (num_times100 (num_or (opt_quality options) (Num 1))))
       else None |}.

(** [page.screenshot(screenshotOptions)] on the page as it stands. *)
Definition screenshot (E : Env) (html : string) (w h : Z) (dsf : JsNum)
  (opts : ScreenshotOptions) : M Buffer :=
  fun world =>
    (screenshot_outcome E html w h dsf opts, EvScreenshot opts :: world).

Definition writeFile (E : Env) (path : string) (data : FileData) : M unit :=
  call (EvWriteFile path data) (writeFile_outcome E path data).

Definition renderSvgFullPage (E : Env) (svgString : string)
  (options : RenderOptions) : M RenderResult :=
  initPuppeteer E ;;
  call EvLaunch (launch_outcome E) ;;
  try_finally
    (call EvNewPage (newPage_outcome E) ;;
     let dims := extractSvgDimensions svgString in
     when (negb (existsSync E (tempDir E)))
          (call (EvMkdir (tempDir E)) (mkdirSync_outcome E (tempDir E))) ;;
     emit EvConsoleLog ;;
     let html := html_of svgString in
     let htmlPath := path_join (tempDir E) ("html-" ++ timestamp E ++ ".html") in
     writeFile E htmlPath (Utf8Text html) ;;
     emit EvConsoleLog ;;
     let timeout := num_or (opt_timeout options) (Num 30000) in
     call (EvSetContent html timeout) (setContent_outcome E html timeout) ;;
     let* boundingBox := measure "SVG element not found" (document_of E html) in
     let finalWidth := Math_ceil (box_width boundingBox) in
     let finalHeight := Math_ceil (box_height boundingBox) in
     let dsf := num_or (opt_deviceScaleFactor options) (Num 2) in
     call (EvSetViewport finalWidth finalHeight dsf)
          (setViewport_outcome E finalWidth finalHeight dsf) ;;
     let outputType := str_or (opt_outputType options) "png" in
     let screenshotOptions := screenshotOptions_of outputType options in
     let* buffer := screenshot E html finalWidth finalHeight dsf screenshotOptions in
     let* savedPath :=
       match opt_outputPath options with
       | Some p =>
           if str_truthy p
           then (writeFile E p (Bytes buffer) ;; ret (Some p))
           else ret None
       | None => ret None
       end in
     let debugPath :=
       path_join (tempDir E) ("png-" ++ timestamp E ++ "." ++ outputType) in
     writeFile E debugPath (Bytes buffer) ;;
     emit EvConsoleLog ;;
     ret {| res_buffer := buffer;
            res_width := finalWidth;
            res_height := finalHeight;
            res_format := outputType;
            res_path := savedPath;
            res_debugPath := Some debugPath |})
    (call EvClose (close_outcome E)).

(* ------------------------------------------------------------------ *)
(** *** The second variant of [renderSvgFullPage] in renderer.js

    The variant with the Korean comments: the same pipeline with an indented
    page template and without the debug dump. *)

Module SecondVariant.

Definition initPuppeteer (E : Env) : M unit :=
  initPuppeteer_with "Puppeteer가 설치되지 않았습니다.
다음 명령어를 실행하세요: npm install puppeteer" E.

Definition html_of (svgString : string) : string :=
  "
      <!DOCTYPE html>
      <html>
        <head>
          <meta charset=" ++ dq ++ "UTF-8" ++ dq ++ " />
          <meta name=" ++ dq ++ "viewport" ++ dq ++ " content=" ++ dq ++ "width=device-width, initial-scale=1.0" ++ dq ++ " />
          <style>
            * {
              margin: 0;
              padding: 0;
              box-sizing: border-box;
            }
            html, body {
              width: 100%;
              height: 100%;
              background: transparent;
              display: flex;
              align-items: center;
              justify-content: center;
              overflow: hidden;
            }
            svg {
              display: block;
              max-width: 100vw;
              max-height: 100vh;
            }
          </style>
        </head>
        <body>
          "
  ++ svgString ++
  "
        </body>
      </html>
    ".

Definition renderSvgFullPage (E : Env) (svgString : string)
  (options : RenderOptions) : M RenderResult :=
  initPuppeteer E ;;
  call EvLaunch (launch_outcome E) ;;
  try_finally
    (call EvNewPage (newPage_outcome E) ;;
     let dims := extractSvgDimensions svgString in
     let html := html_of svgString in
     let timeout := num_or (opt_timeout options) (Num 30000) in
     call (EvSetContent html timeout) (setContent_outcome E html timeout) ;;
     let* boundingBox :=
       measure "SVG 엘리먼트를 찾을 수 없습니다" (document_of E html) in
     let finalWidth := Math_ceil (box_width boundingBox) in
     let finalHeight := Math_ceil (box_height boundingBox) in
     let dsf := num_or (opt_deviceScaleFactor options) (Num 2) in
     call (EvSetViewport finalWidth finalHeight dsf)
          (setViewport_outcome E finalWidth finalHeight dsf) ;;
     let outputType := str_or (opt_outputType options) "png" in
     let screenshotOptions := screenshotOptions_of outputType options in
     let* buffer := screenshot E html finalWidth finalHeight dsf screenshotOptions in
     let* savedPath :=
       match opt_outputPath options with
       | Some p =>
           if str_truthy p
           then (writeFile E p (Bytes buffer) ;; ret (Some p))
           else ret None
       | None => ret None
       end in
     ret {| res_buffer := buffer;
            res_width := finalWidth;
            res_height := finalHeight;
            res_format := outputType;
            res_path := savedPath;
            res_debugPath := None |})
    (call EvClose (close_outcome E)).

End SecondVariant.

(* ================================================================== *)
(** ** FallbackService: the [POST /render] handler (fallback-server.js) *)
(* ================================================================== *)

(** The fields of [req.body] the handler reads.  The fields it converts
    itself ([String(...)], [Number(...)]) may hold any JSON scalar; [svg] is
    used as it is and is a string when present. *)
Record Body : Type := mkBody {
  body_svg : option string;
  body_outputType : JsValue;
  body_quality : JsValue;
  body_deviceScaleFactor : JsValue;
  body_timeout : JsValue
}.

(** [req.file] is the uploaded [svg] part, already read as UTF-8 text. *)
Record Request : Type := mkRequest {
  req_file : option string;
  req_body : option Body
}.

Inductive ResBody : Type :=
| JsonBody (fields : list (string * JsValue))
| SendBody (b : Buffer).

Record Response : Type := mkResponse {
  status : Z;
  headers : list (string * JsValue);
  body : ResBody
}.

(** [Number(v)] *)
Definition Number_of (E : Env) (v : JsValue) : JsNum :=
  match v with
  | JUndefined => NaN
  | JNull => Num 0
  | JBool b => if b then Num 1 else Num 0
  | JNumber n => n
  | JString s => string_to_number E s
  end.

(** [String(v)] *)
Definition String_of (E : Env) (v : JsValue) : string :=
  match v with
  | JUndefined => "undefined"
  | JNull => "null"
  | JBool b => if b then "true" else "false"
  | JNumber n => number_to_string E n
  | JString s => s
  end.

(** [req.body && req.body.field] *)
Definition body_field (req : Request) (field : Body -> JsValue) : JsValue :=
  match req_body req with
  | Some b => field b
  | None => JUndefined
  end.

(** [req.body && typeof req.body.field !== 'undefined'
      ? Number(req.body.field) : NaN] *)
Definition parsed_number (E : Env) (req : Request) (field : Body -> JsValue)
  : JsNum :=
  match body_field req field with
  | JUndefined => NaN
  | v => Number_of E v
  end.

Definition supported_types : list string := ["png"; "jpeg"; "webp"].

Definition handler_svg (req : Request) : option string :=
  match req_file req with
  | Some text => Some text
  | None =>
      match req_body req with
      | Some b => body_svg b
      | None => None
      end
  end.

Definition handler_outputType (E : Env) (req : Request) : string :=
  let v := body_field req body_outputType in
  if truthy v then toLowerCase (String_of E v) else "png".

Definition handler_options (E : Env) (req : Request) : RenderOptions :=
  let parsedQuality := parsed_number E req body_quality in
  let quality := if Number_isFinite parsedQuality then parsedQuality else Num 1 in
  let parsedScale := parsed_number E req body_deviceScaleFactor in
  let deviceScaleFactor :=
    if Number_isFinite parsedScale && num_gt0 parsedScale
    then parsedScale else Num 2 in
  let parsedTimeout := parsed_number E req body_timeout in
  let timeout :=
    if Number_isFinite parsedTimeout && num_gt0 parsedTimeout
    then parsedTimeout else Num 30000 in
  {| opt_outputType := Some (handler_outputType E req);
     opt_outputPath := None;
     opt_quality := Some quality;
     opt_deviceScaleFactor := Some deviceScaleFactor;
     opt_timeout := Some timeout |}.

Definition json_response (code : Z) (fields : list (string * JsValue))
  : Response :=
  {| status := code; headers := []; body := JsonBody fields |}.

Definition svg_required : string := "SVG 문자열이 필요합니다 (svg 필드)".
Definition outputType_invalid : string :=
  "outputType은 png, jpeg, webp 중 하나여야 합니다".

Definition render_handler (E : Env) (req : Request) : M Response :=
  try_catch
    (let svg := handler_svg req in
     let outputType := handler_outputType E req in
     match svg with
     | None => ret (json_response 400 [("error", JString svg_required)])
     | Some svgText =>
         if negb (str_truthy svgText)
         then ret (json_response 400 [("error", JString svg_required)])
         else if negb (includes supported_types outputType)
         then ret (json_response 400 [("error", JString outputType_invalid)])
         else
           emit EvConsoleLog ;;
           let* result := renderSvgFullPage E svgText (handler_options E req) in
           let hdrs :=
             [("Content-Type", JString ("image/" ++ res_format result));
              ("X-Image-Width", JNumber (Num (inject_Z (res_width result))));
              ("X-Image-Height", JNumber (Num (inject_Z (res_height result))));
              ("X-Image-Format", JString (res_format result))] in
           emit EvConsoleLog ;;
           ret {| status := 200;
                  headers := hdrs;
                  body := SendBody (res_buffer result) |}
     end)
    (fun error =>
       emit EvConsoleError ;;
       ret (json_response 500 [("error", JString (err_message error));
                               ("type", JString (err_name error))])).

(* ================================================================== *)
(** ** Scenarios: a cooperative engine and sample inputs *)
(* ================================================================== *)

Definition rect0 : Rect := mkRect 0 0.

(** The page built from the template around a given body content. *)
Definition page_document (viewport : Rect) (content : list Element) : Element :=
  Elem "html" viewport
    [Elem "head" rect0
       [Elem "meta" rect0 []; Elem "meta" rect0 []; Elem "style" rect0 []];
     Elem "body" viewport content].

Definition viewport800x600 : Rect := mkRect 800 600.

(** An engine on which every call succeeds: markup [markup] loads as the
    elements [content], any other page has an empty body, and a screenshot
    is the buffer [shot]. *)
Definition cooperative_env (markup : string) (content : list Element)
  (shot : Buffer) : Env :=
  {| puppeteer_installed := true;
     launch_outcome := None;
     newPage_outcome := None;
     close_outcome := None;
     setContent_outcome := fun _ _ => None;
     document_of := fun html =>
       if String.eqb html (html_of markup)
          || String.eqb html (SecondVariant.html_of markup)
       then page_document viewport800x600 content
       else page_document viewport800x600 [];
     setViewport_outcome := fun _ _ _ => None;
     screenshot_outcome := fun _ _ _ _ _ => Ok shot;
     project_root := "/srv/dom-to-image";
     existsSync := fun _ => true;
     mkdirSync_outcome := fun _ => None;
     writeFile_outcome := fun _ _ => None;
     now_iso := "2024-05-01T10:20:30.456Z";
     string_to_number := parseFloat;
     number_to_string := fun _ => "NaN" |}.

Definition no_options : RenderOptions :=
  {| opt_outputType := None;
     opt_outputPath := None;
     opt_quality := None;
     opt_deviceScaleFactor := None;
     opt_timeout := None |}.

Definition png_signature : Buffer :=
  [Byte.x89; Byte.x50; Byte.x4e; Byte.x47].

(** [<svg width="300" height="150"></svg>] *)
Definition sized_svg : string :=
  "<svg width=" ++ dq ++ "300" ++ dq ++ " height=" ++ dq ++ "150" ++ dq
  ++ "></svg>".

(** [<div><svg></svg></div>] *)
Definition wrapped_svg : string := "<div><svg></svg></div>".

Definition json_request (svg : option string) (outputType : JsValue)
  : Request :=
  {| req_file := None;
     req_body := Some {| body_svg := svg;
                         body_outputType := outputType;
                         body_quality := JUndefined;
                         body_deviceScaleFactor := JUndefined;
                         body_timeout := JUndefined |} |}.

(** The markup announces 300 x 150 and the engine lays the element out at
    120.5 x 80. *)
Definition measured_env : Env :=
  cooperative_env sized_svg [Elem "svg" (mkRect (241 # 2) 80) []] png_signature.

(** [<div><svg></svg></div>]: the [div] fills the width of the view, the
    [svg] inside it takes the default size of a replaced element. *)
Definition wrapped_env : Env :=
  cooperative_env wrapped_svg
    [Elem "div" (mkRect 800 150) [Elem "svg" (mkRect 300 150) []]]
    png_signature.

Definition htmlPath (E : Env) : string :=
  path_join (tempDir E) ("html-" ++ timestamp E ++ ".html").

Definition debugPath (E : Env) (outputType : string) : string :=
  path_join (tempDir E) ("png-" ++ timestamp E ++ "." ++ outputType).

(* ================================================================== *)
(** ** Specification vocabulary *)
(* ================================================================== *)

(** Every event a computation adds to the world satisfies [P]. *)
Definition emits_only {A : Type} (P : Event -> Prop) (m : M A) : Prop :=
  forall w r w',
    m w = (r, w') -> exists mid, w' = (mid ++ w)%list /\ Forall P mid.

(** The file-system effects of a render that wrote nothing but the file the
    caller asked for. *)
Definition only_requested_file (options : RenderOptions) (ev : Event) : Prop :=
  match ev with
  | EvWriteFile p _ => opt_outputPath options = Some p
  | EvMkdir _ => False
  | _ => True
  end.

(** The file-system effects of the first variant: the requested file, the
    two dumps under the [temp] directory, and that directory. *)
Definition requested_or_dump (E : Env) (options : RenderOptions) (ev : Event)
  : Prop :=
  match ev with
  | EvWriteFile p _ =>
      opt_outputPath options = Some p
      \/ p = htmlPath E
      \/ p = debugPath E (str_or (opt_outputType options) "png")
  | EvMkdir d => d = tempDir E
  | _ => True
  end.

Fixpoint has_char (c : ascii) (s : string) : bool :=
  match s with
  | EmptyString => false
  | String a s' => Ascii.eqb a c || has_char c s'
  end.

Definition with_quality (q : option JsNum) : RenderOptions :=
  {| opt_outputType := None;
     opt_outputPath := None;
     opt_quality := q;
     opt_deviceScaleFactor := None;
     opt_timeout := None |}.

(** The success response built from a render result. *)
Definition image_response (result : RenderResult) : Response :=
  {| status := 200;
     headers :=
       [("Content-Type", JString ("image/" ++ res_format result));
        ("X-Image-Width", JNumber (Num (inject_Z (res_width result))));
        ("X-Image-Height", JNumber (Num (inject_Z (res_height result))));
        ("X-Image-Format", JString (res_format result))];
     body := SendBody (res_buffer result) |}.

(** The response of the [catch] block. *)
Definition error_response (e : Error) : Response :=
  json_response 500 [("error", JString (err_message e));
                     ("type", JString (err_name e))].

(** A request that passes both checks of the handler, with its markup. *)
Definition passes_validation (E : Env) (req : Request) (svg : string) : Prop :=
  handler_svg req = Some svg
  /\ str_truthy svg = true
  /\ includes supported_types (handler_outputType E req) = true.

(** A request stopped by the first check. *)
Definition lacks_svg (req : Request) : Prop :=
  handler_svg req = None \/ handler_svg req = Some EmptyString.

Definition has_key (k : string) (fields : list (string * JsValue)) : Prop :=
  exists v, In (k, v) fields.

(** *** Occurrences of a numeric attribute, stated on the text *)

Fixpoint digits_only (s : string) : bool :=
  match s with
  | EmptyString => true
  | String c s' => is_digit c && digits_only s'
  end.

Definition starts_with_digit (s : string) : bool :=
  match s with
  | String c _ => is_digit c
  | EmptyString => false
  end.

Definition starts_with_fraction (s : string) : bool :=
  match s with
  | String c r => Ascii.eqb c "." && starts_with_digit r
  | EmptyString => false
  end.

(** A run of one or more digits. *)
Definition digit_run (s : string) : Prop :=
  s <> EmptyString /\ digits_only s = true.

(** [numeral_before cap rest]: [cap] is a decimal numeral (digits,
    optionally a dot and digits) standing in front of [rest] that cannot be
    extended into [rest]. *)
Inductive numeral_before : string -> string -> Prop :=
| numeral_integer (ip rest : string) :
    digit_run ip ->
    starts_with_digit rest = false ->
    starts_with_fraction rest = false ->
    numeral_before ip rest
| numeral_fraction (ip fp rest : string) :
    digit_run ip ->
    digit_run fp ->
    starts_with_digit rest = false ->
    numeral_before (ip ++ "." ++ fp) rest.

(** The text [s] starts with the attribute name, an equals sign, an optional
    double quote and the numeral [cap]. *)
Definition occurrence_here (attr s cap : string) : Prop :=
  exists q rest,
    s = attr ++ "=" ++ q ++ cap ++ rest
    /\ (q = EmptyString \/ q = dq)
    /\ numeral_before cap rest.

(** Such an occurrence starts at offset [i] of [s]. *)
Definition occurs_at (attr s : string) (i : nat) (cap : string) : Prop :=
  exists pre tail,
    s = pre ++ tail /\ String.length pre = i /\ occurrence_here attr tail cap.

Definition no_occurrence (attr s : string) : Prop :=
  forall i cap, ~ occurs_at attr s i cap.

Definition first_occurrence (attr s : string) (i : nat) (cap : string) : Prop :=
  occurs_at attr s i cap
  /\ forall j cap', (j < i)%nat -> ~ occurs_at attr s j cap'.

(** [<svg height="50"></svg>] *)
Definition height_only_svg : string :=
  "<svg height=" ++ dq ++ "50" ++ dq ++ "></svg>".

(** [<g stroke-width="2.5"><svg width=640 height="480px"></g>] *)
Definition loose_svg : string :=
  "<g stroke-width=" ++ dq ++ "2.5" ++ dq ++ "><svg width=640 height="
  ++ dq ++ "480px" ++ dq ++ "></g>".

(** The error of a page without an [svg] element. *)
Definition svg_not_found : Error := mkError "Error" "SVG element not found".

(** An event that is neither the launch nor the release of the engine. *)
Definition inside_session (ev : Event) : Prop :=
  ev <> EvLaunch /\ ev <> EvClose.

(** A request for a [jpeg] at quality 0. *)
Definition jpeg_quality0_request : Request :=
  {| req_file := None;
     req_body := Some {| body_svg := Some sized_svg;
                         body_outputType := JString "jpeg";
                         body_quality := JNumber (Num 0);
                         body_deviceScaleFactor := JUndefined;
                         body_timeout := JUndefined |} |}.

(* ================================================================== *)
(** ** Convenience wrappers: [svgToPng], [svgToJpeg], [svgToWebp]
       (renderer.js) *)
(* ================================================================== *)

(** [{ ...options, outputType: t }] *)
Definition with_outputType (options : RenderOptions) (t : string)
  : RenderOptions :=
  {| opt_outputType := Some t;
     opt_outputPath := opt_outputPath options;
     opt_quality := opt_quality options;
     opt_deviceScaleFactor := opt_deviceScaleFactor options;
     opt_timeout := opt_timeout options |}.

Definition svgToPng (E : Env) (svgString : string) (options : RenderOptions)
  : M Buffer :=
  let* result := renderSvgFullPage E svgString (with_outputType options "png") in
  ret (res_buffer result).

Definition svgToJpeg (E : Env) (svgString : string) (options : RenderOptions)
  : M Buffer :=
  let* result := renderSvgFullPage E svgString (with_outputType options "jpeg") in
  ret (res_buffer result).

Definition svgToWebp (E : Env) (svgString : string) (options : RenderOptions)
  : M Buffer :=
  let* result := renderSvgFullPage E svgString (with_outputType options "webp") in
  ret (res_buffer result).

(* ================================================================== *)
(** ** [mergeDefaults] (utils.js) *)
(* ================================================================== *)

(** A plain object: its own properties in insertion order. *)
Definition JsObject : Type := list (string * JsValue).

(** [o[k]], [None] when [o] has no own property [k]. *)
Fixpoint obj_get (k : string) (o : JsObject) : option JsValue :=
  match o with
  | [] => None
  | (k', v) :: o' => if String.eqb k k' then Some v else obj_get k o'
  end.





(* ================================================================== *)
(** ** The client: [isSafari], [fetchFallbackRender], [safariRenderToBlob]
       (safari-fallback.js) *)
(* ================================================================== *)

(** [/p/.test(s)] for a pattern that is a plain word: [p] occurs in [s]. *)
Fixpoint contains (p s : string) : bool :=
  match strip_prefix p s with
  | Some _ => true
  | None =>
      match s with
      | EmptyString => false
      | String _ s' => contains p s'
      end
  end.

(** [userAgent] is [navigator.userAgent]. *)
Definition isSafari (userAgent : string) : bool :=
  contains "Safari" userAgent
  && negb (contains "Chrome" userAgent || contains "Firefox" userAgent
           || contains "Edge" userAgent || contains "OPR" userAgent).

(** [s] holds the word [p]. *)
Definition substring (p s : string) : Prop :=
  exists a b, s = a ++ p ++ b.

Record FallbackOptions : Type := mkFallbackOptions {
  fo_fallbackServer : option string;
  fo_quality : option JsNum;
  fo_deviceScaleFactor : option JsNum
}.

(** The second argument of [fetch]; [fi_body] is the object whose JSON text
    is sent. *)
Record FetchInit : Type := mkFetchInit {
  fi_method : string;
  fi_headers : list (string * string);
  fi_body : JsObject
}.

(** What the client reads of a response: [response.ok],
    [response.statusText], the object [response.json()] resolves to ([None]
    when it rejects) and the bytes [response.blob()] resolves to. *)
Record FetchResponse : Type := mkFetchResponse {
  fr_ok : bool;
  fr_statusText : string;
  fr_json : option JsObject;
  fr_blob : Buffer
}.

(** [fetch]: it resolves to a response or rejects. *)
Definition Fetch : Type := string -> FetchInit -> M FetchResponse.

Definition fallback_payload (svgString format : string)
  (options : FallbackOptions) : JsObject :=
  [("svg", JString svgString);
   ("outputType", JString format);
   ("quality", JNumber (num_or (fo_quality options) (Num 1)));
   ("deviceScaleFactor",
    JNumber (num_or (fo_deviceScaleFactor options) (Num 2)))].

(** [error.error || response.statusText], as interpolated in the message. *)
Definition failure_text (E : Env) (error : JsObject) (statusText : string)
  : string :=
  match obj_get "error" error with
  | Some v => if truthy v then String_of E v else statusText
  | None => statusText
  end.

(** [format] is [None] when the argument is left out ([format = 'png']). *)
Definition fetchFallbackRender (E : Env) (fetch : Fetch) (svgString : string)
  (format : option string) (options : FallbackOptions) : M Buffer :=
  let format := match format with Some f => f | None => "png" end in
  let fallbackServer := str_or (fo_fallbackServer options) "/render" in
  let payload := fallback_payload svgString format options in
  let* response :=
    fetch fallbackServer
      {| fi_method := "POST";
         fi_headers := [("Content-Type", "application/json")];
         fi_body := payload |} in
  if negb (fr_ok response) then
    let error := match fr_json response with Some o => o | None => [] end in
    throw (mkError "Error"
             ("Fallback render failed: "
              ++ failure_text E error (fr_statusText response)))
  else ret (fr_blob response).

(** [toSvgFunc] is [domtoimage.toSvg], applied to the node already. *)
Definition safariRenderToBlob (E : Env) (fetch : Fetch)
  (toSvgFunc : FallbackOptions -> M string) (format : option string)
  (options : FallbackOptions) : M Buffer :=
  let* svgDataUri := toSvgFunc options in
  let svgString := svgDataUriToString svgDataUri in
  let* blob := fetchFallbackRender E fetch svgString format options in
  ret blob.

(* ------------------------------------------------------------------ *)
(** *** The client talking to the [POST /render] handler *)

(** A number after [JSON.stringify] and [JSON.parse]: the values that are
    not finite become [null]. *)
Definition json_number (v : JsValue) : JsValue :=
  match v with
  | JNumber (Num q) => JNumber (Num q)
  | JNumber _ => JNull
  | other => other
  end.

Definition json_field (k : string) (o : JsObject) : JsValue :=
  match obj_get k o with
  | Some v => json_number v
  | None => JUndefined
  end.

(** [req] as [express.json()] builds it from the JSON text of [o]. *)
Definition request_of_json (o : JsObject) : Request :=
  {| req_file := None;
     req_body :=
       Some {| body_svg := match obj_get "svg" o with
                           | Some (JString s) => Some s
                           | _ => None
                           end;
               body_outputType := json_field "outputType" o;
               body_quality := json_field "quality" o;
               body_deviceScaleFactor := json_field "deviceScaleFactor" o;
               body_timeout := json_field "timeout" o |} |}.

(** The reason phrase of the status codes the handler uses. *)
Definition status_text (code : Z) : string :=
  if (code =? 200)%Z then "OK"
  else if (code =? 400)%Z then "Bad Request"
  else if (code =? 500)%Z then "Internal Server Error"
  else "".

(** A response of the handler as [fetch] shows it; [json_text] gives the
    bytes of a JSON body. *)
Definition fetch_view (json_text : JsObject -> Buffer) (r : Response)
  : FetchResponse :=
  {| fr_ok := ((200 <=? status r) && (status r <=? 299))%Z;
     fr_statusText := status_text (status r);
     fr_json := match body r with
                | JsonBody fields => Some fields
                | SendBody _ => None
                end;
     fr_blob := match body r with
                | JsonBody fields => json_text fields
                | SendBody b => b
                end |}.

(** [fetch] against a server that runs the handler on environment [E]. *)
Definition served_fetch (E : Env) (json_text : JsObject -> Buffer) : Fetch :=
  fun _ init =>
    let* response := render_handler E (request_of_json (fi_body init)) in
    ret (fetch_view json_text response).


(* ================================================================== *)
(** ** More scenarios and vocabulary *)
(* ================================================================== *)

(** The directory created on the way, if it was missing. *)
Definition mkdir_events (E : Env) : list Event :=
  if existsSync E (tempDir E) then [] else [EvMkdir (tempDir E)].

(** The write asked for with [outputPath], if any. *)
Definition saved_events (res : RenderResult) : list Event :=
  match res_path res with
  | Some p => [EvWriteFile p (Bytes (res_buffer res))]
  | None => []
  end.

(** [savedPath] as the options decide it. *)
Definition requested_path (options : RenderOptions) : option string :=
  match opt_outputPath options with
  | Some p => if str_truthy p then Some p else None
  | None => None
  end.

(** Everything a successful run of the first variant has done, newest
    first. *)
Definition success_trace (E : Env) (svgString : string)
  (options : RenderOptions) (res : RenderResult) : list Event :=
  ([EvClose;
    EvConsoleLog;
    EvWriteFile (debugPath E (res_format res)) (Bytes (res_buffer res))]
   ++ saved_events res
   ++ [EvScreenshot (screenshotOptions_of (res_format res) options);
       EvSetViewport (res_width res) (res_height res)
         (num_or (opt_deviceScaleFactor options) (Num 2));
       EvSetContent (html_of svgString)
         (num_or (opt_timeout options) (Num 30000));
       EvConsoleLog;
       EvWriteFile (htmlPath E) (Utf8Text (html_of svgString));
       EvConsoleLog]
   ++ mkdir_events E
   ++ [EvNewPage; EvLaunch])%list.

(** [measured_env] with one answer changed. *)
Definition env_with (installed : bool) (launch close : option Error)
  (write : string -> FileData -> option Error) : Env :=
  {| puppeteer_installed := installed;
     launch_outcome := launch;
     newPage_outcome := newPage_outcome measured_env;
     close_outcome := close;
     setContent_outcome := setContent_outcome measured_env;
     document_of := document_of measured_env;
     setViewport_outcome := setViewport_outcome measured_env;
     screenshot_outcome := screenshot_outcome measured_env;
     project_root := project_root measured_env;
     existsSync := existsSync measured_env;
     mkdirSync_outcome := mkdirSync_outcome measured_env;
     writeFile_outcome := write;
     now_iso := now_iso measured_env;
     string_to_number := string_to_number measured_env;
     number_to_string := number_to_string measured_env |}.

Definition no_failure : string -> FileData -> option Error := fun _ _ => None.

Definition target_closed : Error :=
  mkError "TargetCloseError" "Protocol error: Target closed".

Definition read_only_fs : Error :=
  mkError "Error" "EROFS: read-only file system".

Definition missing_engine_env : Env := env_with false None None no_failure.

Definition failing_close_env : Env :=
  env_with true None (Some target_closed) no_failure.

Definition read_only_env : Env :=
  env_with true None None (fun _ _ => Some read_only_fs).

Definition with_path (p : string) : RenderOptions :=
  {| opt_outputType := None;
     opt_outputPath := Some p;
     opt_quality := None;
     opt_deviceScaleFactor := None;
     opt_timeout := None |}.

(** Options asking for a [jpeg] at half quality. *)
Definition jpeg_half_options : RenderOptions :=
  {| opt_outputType := Some "jpeg";
     opt_outputPath := None;
     opt_quality := Some (Num (1 # 2));
     opt_deviceScaleFactor := None;
     opt_timeout := None |}.

(** The screenshot options of a capture without quality. *)
Definition plain_capture (type : string) : ScreenshotOptions :=
  {| shot_type := type;
     shot_fullPage := true;
     shot_omitBackground := true;
     shot_quality := None |}.

(** The screenshot options of a [jpeg] capture. *)
Definition jpeg_capture (options : RenderOptions) : ScreenshotOptions :=
  {| shot_type := "jpeg";
     shot_fullPage := true;
     shot_omitBackground := true;
     shot_quality :=
       Some (Math_round (num_times100 (num_or (opt_quality options) (Num 1)))) |}.

Definition no_fallback_options : FallbackOptions :=
  {| fo_fallbackServer := None; fo_quality := None; fo_deviceScaleFactor := None |}.

Definition zero_quality_options : FallbackOptions :=
  {| fo_fallbackServer := None;
     fo_quality := Some (Num 0);
     fo_deviceScaleFactor := None |}.

(** A stand-in for the bytes of a JSON body, which the client never reads. *)
Definition no_json_text : JsObject -> Buffer := fun _ => [].

(** What the client reports of an error thrown by the render. *)
Definition client_error (e : Error) : Error :=
  mkError "Error"
    ("Fallback render failed: "
     ++ (if str_truthy (err_message e) then err_message e
         else "Internal Server Error")).

(** The file-system effects the handler can have for a request. *)
Definition dump_only (E : Env) (req : Request) (ev : Event) : Prop :=
  match ev with
  | EvWriteFile p _ =>
      p = htmlPath E \/ p = debugPath E (handler_outputType E req)
  | EvMkdir d => d = tempDir E
  | _ => True
  end.




(** A snapshot producer that answers with the data URI of [sized_svg], as
    [domtoimage.toSvg] builds it. *)
Definition sized_snapshot : FallbackOptions -> M string :=
  fun _ => ret ("data:image/svg+xml" ++ ";charset=utf-8" ++ "," ++ sized_svg).

(* ================================================================== *)
(** * Properties *)
(* ================================================================== *)

(** ** Reasoning about the effect monad *)

Section MonadInversion.
Context {A B : Type}.

Lemma bind_ok_inv (m : M A) (k : A -> M B) (w w' : World) (b : B) :
  bind m k w = (Ok b, w') ->
  exists a w1, m w = (Ok a, w1) /\ k a w1 = (Ok b, w').
Proof.
  unfold bind. destruct (m w) as [[a | e] w1]; intros H.
  - exists a, w1. split; [reflexivity | exact H].
  - discriminate H.
Qed.

Lemma bind_inv (m : M A) (k : A -> M B) (w w' : World) (r : Result B) :
  bind m k w = (r, w') ->
  (exists a w1, m w = (Ok a, w1) /\ k a w1 = (r, w'))
  \/ (exists e, m w = (Err e, w') /\ r = Err e).
Proof.
  unfold bind. destruct (m w) as [[a | e] w1]; intros H.
  - left. exists a, w1. auto.
  - right. inversion H; subst. exists e. auto.
Qed.

Lemma try_finally_ok_inv (body : M A) (fin : M unit) (w w' : World) (a : A) :
  try_finally body fin w = (Ok a, w') ->
  exists w1, body w = (Ok a, w1) /\ fin w1 = (Ok tt, w').
Proof.
  unfold try_finally. destruct (body w) as [r w1].
  destruct (fin w1) as [[[] | e] w2] eqn:Hfin; intros H; inversion H; subst.
  exists w1. split; [reflexivity | exact Hfin].
Qed.
End MonadInversion.

Lemma call_ok_inv (ev : Event) (o : option Error) (w w' : World) (u : unit) :
  call ev o w = (Ok u, w') -> o = None /\ w' = ev :: w.
Proof.
  unfold call. destruct o; intros H; inversion H; auto.
Qed.

Lemma measure_ok_inv (msg : string) (doc : Element) (w w' : World)
  (box : BoundingBox) :
  measure msg doc w = (Ok box, w') ->
  exists svg, querySelector "svg" doc = Some svg
    /\ box = {| box_width := Math_max1 (rect_width (rect_of svg));
                box_height := Math_max1 (rect_height (rect_of svg)) |}
    /\ w' = w.
Proof.
  unfold measure. destruct (querySelector "svg" doc) as [svg |]; intros H.
  - inversion H; subst. exists svg. auto.
  - discriminate H.
Qed.

Lemma screenshot_ok_inv (E : Env) (html : string) (vw vh : Z) (dsf : JsNum)
  (so : ScreenshotOptions) (w w' : World) (buf : Buffer) :
  screenshot E html vw vh dsf so w = (Ok buf, w') ->
  screenshot_outcome E html vw vh dsf so = Ok buf.
Proof.
  unfold screenshot. intros H. inversion H. reflexivity.
Qed.

(** Peel the next statement off a run that ended normally. *)
Ltac step_ok H :=
  let a := fresh "a" in
  let w1 := fresh "w" in
  let H1 := fresh "Hstep" in
  apply bind_ok_inv in H; destruct H as (a & w1 & H1 & H).

(** ** The measured extent *)

Lemma Math_ceil_max1_ge_1 (x : Q) : (1 <= Math_ceil (Math_max1 x))%Z.
Proof.
  unfold Math_ceil, Math_max1.
  change 1%Z with (Qceiling 1) at 1.
  apply Qceiling_resp_le. apply Q.le_max_r.
Qed.

(** What a successful run of [renderSvgFullPage] went through: the first
    [svg] element of the loaded page was found, and the result comes from
    its box and from the screenshot. *)
Lemma render_ok_inv (E : Env) (svgString : string) (options : RenderOptions)
  (w w' : World) (res : RenderResult) :
  renderSvgFullPage E svgString options w = (Ok res, w') ->
  exists svg,
    querySelector "svg" (document_of E (html_of svgString)) = Some svg
    /\ res_width res = Math_ceil (Math_max1 (rect_width (rect_of svg)))
    /\ res_height res = Math_ceil (Math_max1 (rect_height (rect_of svg)))
    /\ res_format res = str_or (opt_outputType options) "png"
    /\ screenshot_outcome E (html_of svgString) (res_width res) (res_height res)
         (num_or (opt_deviceScaleFactor options) (Num 2))
         (screenshotOptions_of (str_or (opt_outputType options) "png") options)
       = Ok (res_buffer res).
Proof.
  unfold renderSvgFullPage. intros H.
  step_ok H. step_ok H.
  apply try_finally_ok_inv in H. destruct H as (wb & H & _).
  do 7 step_ok H.
  match goal with
  | Hm : measure _ _ _ = _ |- _ =>
      apply measure_ok_inv in Hm; destruct Hm as (svg & Hq & Hbox & _)
  end.
  subst. do 2 step_ok H.
  match goal with
  | Hs : screenshot _ _ _ _ _ _ _ = _ |- _ => apply screenshot_ok_inv in Hs
  end.
  do 3 step_ok H.
  inversion H; subst; clear H. cbn [res_width res_height res_format res_buffer].
  exists svg. cbn [box_width box_height] in *. auto.
Qed.

(** C1: for every successful render, the width and height of the result are
    the ceiling of the bounding box measured on the first [svg] element of
    the loaded page, clamped to at least 1 in each dimension, whatever
    [extractSvgDimensions] guessed; and the buffer of the result, which is
    the buffer the engine's screenshot delivered, is not empty when the
    engine's screenshots are not. *)
Theorem render_result_is_measured_extent
  (E : Env) (svgString : string) (options : RenderOptions)
  (w w' : World) (res : RenderResult)
  (Hshot : forall html vw vh dsf so buf,
      screenshot_outcome E html vw vh dsf so = Ok buf ->
      (0 < List.length buf)%nat) :
  renderSvgFullPage E svgString options w = (Ok res, w') ->
  exists svg,
    querySelector "svg" (document_of E (html_of svgString)) = Some svg
    /\ res_width res = Qceiling (Qmax (rect_width (rect_of svg)) 1)
    /\ res_height res = Qceiling (Qmax (rect_height (rect_of svg)) 1)
    /\ (1 <= res_width res)%Z
    /\ (1 <= res_height res)%Z
    /\ (0 < List.length (res_buffer res))%nat.
Proof.
  intros H. apply render_ok_inv in H.
  destruct H as (svg & Hq & Hw & Hh & _ & Hbuf).
  exists svg. repeat split; try assumption.
  - rewrite Hw. apply Math_ceil_max1_ge_1.
  - rewrite Hh. apply Math_ceil_max1_ge_1.
  - eapply Hshot. exact Hbuf.
Qed.

Lemma render_result_is_measured_extent_witness :
  extractSvgDimensions sized_svg = {| dim_width := Num 300; dim_height := Num 150 |}
  /\ exists res w',
      renderSvgFullPage measured_env sized_svg no_options [] = (Ok res, w')
      /\ res_width res = 121%Z /\ res_height res = 80%Z
      /\ (0 < List.length (res_buffer res))%nat.
Proof.
  split; [vm_compute; reflexivity |].
  destruct (renderSvgFullPage measured_env sized_svg no_options [])
    as [[res | e] w'] eqn:Hrun; [| vm_compute in Hrun; discriminate Hrun].
  exists res, w'. split; [reflexivity |].
  destruct (render_result_is_measured_extent measured_env sized_svg no_options
              [] w' res) as (svg & Hq & Hw & Hh & _ & _ & Hbuf).
  - intros html vw vh dsf so buf Hok. vm_compute in Hok.
    inversion Hok; subst. simpl. lia.
  - exact Hrun.
  - vm_compute in Hq. inversion Hq; subst svg.
    rewrite Hw, Hh. repeat split; try exact Hbuf; vm_compute; reflexivity.
Defined.

(** ** Events added by a computation *)

Section EmitsOnly.
Variable P : Event -> Prop.

Lemma emits_ret {A : Type} (a : A) : emits_only P (ret a).
Proof.
  intros w r w' H. inversion H; subst. exists []. split; [reflexivity | constructor].
Qed.

Lemma emits_throw {A : Type} (e : Error) : emits_only P (@throw A e).
Proof.
  intros w r w' H. inversion H; subst. exists []. split; [reflexivity | constructor].
Qed.

Lemma emits_emit (ev : Event) : P ev -> emits_only P (emit ev).
Proof.
  intros Hev w r w' H. inversion H; subst. exists [ev].
  split; [reflexivity | repeat constructor; exact Hev].
Qed.

Lemma emits_call (ev : Event) (o : option Error) :
  P ev -> emits_only P (call ev o).
Proof.
  intros Hev w r w' H. unfold call in H.
  destruct o; inversion H; subst; exists [ev];
    (split; [reflexivity | repeat constructor; exact Hev]).
Qed.

Lemma emits_bind {A B : Type} (m : M A) (k : A -> M B) :
  emits_only P m -> (forall a, emits_only P (k a)) -> emits_only P (bind m k).
Proof.
  intros Hm Hk w r w' H. unfold bind in H.
  destruct (m w) as [[a | e] w1] eqn:Hrun.
  - destruct (Hm _ _ _ Hrun) as (mid1 & -> & F1).
    destruct (Hk a _ _ _ H) as (mid2 & -> & F2).
    exists (mid2 ++ mid1)%list. split; [apply app_assoc | apply Forall_app; auto].
  - inversion H; subst. exact (Hm _ _ _ Hrun).
Qed.

Lemma emits_when (b : bool) (m : M unit) :
  emits_only P m -> emits_only P (when b m).
Proof.
  intros Hm. destruct b; [exact Hm | apply emits_ret].
Qed.

Lemma emits_try_finally {A : Type} (body : M A) (fin : M unit) :
  emits_only P body -> emits_only P fin -> emits_only P (try_finally body fin).
Proof.
  intros Hb Hf w r w' H. unfold try_finally in H.
  destruct (body w) as [rb w1] eqn:Hrun.
  destruct (fin w1) as [rf w2] eqn:Hfin.
  destruct (Hb _ _ _ Hrun) as (mid1 & -> & F1).
  destruct (Hf _ _ _ Hfin) as (mid2 & -> & F2).
  exists (mid2 ++ mid1)%list.
  destruct rf; inversion H; subst;
    (split; [apply app_assoc | apply Forall_app; auto]).
Qed.

Lemma emits_try_catch {A : Type} (body : M A) (handler : Error -> M A) :
  emits_only P body -> (forall e, emits_only P (handler e)) ->
  emits_only P (try_catch body handler).
Proof.
  intros Hb Hh w r w' H. unfold try_catch in H.
  destruct (body w) as [[a | e] w1] eqn:Hrun.
  - inversion H; subst. exact (Hb _ _ _ Hrun).
  - destruct (Hb _ _ _ Hrun) as (mid1 & -> & F1).
    destruct (Hh e _ _ _ H) as (mid2 & -> & F2).
    exists (mid2 ++ mid1)%list. split; [apply app_assoc | apply Forall_app; auto].
Qed.

Lemma emits_measure (msg : string) (doc : Element) :
  emits_only P (measure msg doc).
Proof.
  unfold measure. destruct (querySelector "svg" doc);
    [apply emits_ret | apply emits_throw].
Qed.

Lemma emits_screenshot (E : Env) (html : string) (vw vh : Z) (dsf : JsNum)
  (so : ScreenshotOptions) :
  P (EvScreenshot so) -> emits_only P (screenshot E html vw vh dsf so).
Proof.
  intros Hev w r w' H. inversion H; subst. exists [EvScreenshot so].
  split; [reflexivity | repeat constructor; exact Hev].
Qed.

Lemma emits_initPuppeteer (msg : string) (E : Env) :
  emits_only P (initPuppeteer_with msg E).
Proof.
  unfold initPuppeteer_with. destruct (puppeteer_installed E);
    [apply emits_ret | apply emits_throw].
Qed.
End EmitsOnly.

Lemma emits_only_weaken {A : Type} (P Q : Event -> Prop) (m : M A) :
  (forall ev, P ev -> Q ev) -> emits_only P m -> emits_only Q m.
Proof.
  intros HPQ Hm w r w' H. destruct (Hm _ _ _ H) as (mid & -> & F).
  exists mid. split; [reflexivity |].
  eapply Forall_impl; [exact HPQ | exact F].
Qed.

(** Discharge an [emits_only] goal along the structure of the program. *)
Ltac emits :=
  repeat first
    [ apply emits_ret
    | apply emits_throw
    | apply emits_measure
    | apply emits_initPuppeteer
    | progress unfold initPuppeteer
    | progress unfold SecondVariant.initPuppeteer
    | apply emits_bind; [| intro]
    | apply emits_when
    | apply emits_try_finally
    | apply emits_try_catch; [| intro]
    | apply emits_emit
    | apply emits_call
    | apply emits_screenshot
    | match goal with
      | |- emits_only _ (writeFile _ _ _) => unfold writeFile
      | |- emits_only _ (match ?x with _ => _ end) => destruct x eqn:?
      end ].

(** ** Release of the engine *)

Lemma try_finally_call_inv {A : Type} (body : M A) (ev : Event)
  (o : option Error) (w w' : World) (r : Result A) :
  try_finally body (call ev o) w = (r, w') ->
  exists rb w1, body w = (rb, w1) /\ w' = ev :: w1
    /\ match o with
       | None => r = rb
       | Some e => r = Err e
       end.
Proof.
  unfold try_finally, call. destruct (body w) as [rb w1].
  intros H. exists rb, w1.
  destruct o; inversion H; subst; auto.
Qed.

(** C9: whenever the engine instance was launched, [browser.close()] is the
    last thing the call does before its result or error is delivered, on
    every exit path, and it is called exactly once: the world after the call
    is the launch, then the events of the session, none of them a launch or
    a close, then the close. *)
Theorem engine_closed_on_every_exit
  (E : Env) (svgString : string) (options : RenderOptions)
  (w w' : World) (r : Result RenderResult) :
  puppeteer_installed E = true ->
  launch_outcome E = None ->
  renderSvgFullPage E svgString options w = (r, w') ->
  exists mid,
    w' = (EvClose :: mid ++ EvLaunch :: w)%list /\ Forall inside_session mid.
Proof.
  intros Hinst Hlaunch H.
  unfold renderSvgFullPage, initPuppeteer, initPuppeteer_with in H.
  rewrite Hinst, Hlaunch in H.
  apply bind_inv in H.
  destruct H as [(u & w0 & Hinit & H) | (e & Hinit & _)];
    [| discriminate Hinit].
  inversion Hinit; subst w0; clear Hinit.
  apply bind_inv in H.
  destruct H as [(u' & w0 & Hcall & H) | (e & Hcall & _)];
    [| discriminate Hcall].
  inversion Hcall; subst w0; clear Hcall.
  apply try_finally_call_inv in H.
  destruct H as (rb & w1 & Hbody & -> & _).
  assert (Hframe : exists mid, w1 = (mid ++ EvLaunch :: w)%list
                               /\ Forall inside_session mid).
  { revert Hbody. generalize (EvLaunch :: w). intros w0 Hbody.
    eapply (emits_only_weaken inside_session inside_session);
      [auto | | exact Hbody].
    emits; split; discriminate. }
  destruct Hframe as (mid & -> & F). exists mid. auto.
Qed.

Lemma engine_closed_on_every_exit_witness :
  exists r mid,
    renderSvgFullPage measured_env "<p>no drawing</p>" no_options []
    = (Err r, (EvClose :: mid ++ [EvLaunch])%list)
    /\ Forall inside_session mid.
Proof.
  destruct (renderSvgFullPage measured_env "<p>no drawing</p>" no_options [])
    as [r w'] eqn:Hrun.
  destruct (engine_closed_on_every_exit measured_env "<p>no drawing</p>"
              no_options [] w' r eq_refl eq_refl Hrun) as (mid & -> & F).
  destruct r as [res | e]; [vm_compute in Hrun; discriminate Hrun |].
  exists e, mid. split; [reflexivity | exact F].
Defined.

(** ** Markup without an [svg] element *)

(** C2, as the code has it: when the page loaded from the markup holds no
    [svg] element at all, the render never succeeds, and on an engine whose
    calls all go through the error is the [Error] with message
    [SVG element not found], thrown by the measurement.  (An [svg] element
    below another root is found by [querySelector] and measured, see
    [render_ok_inv].) *)
Theorem render_fails_without_svg_element
  (E : Env) (svgString : string) (options : RenderOptions) (w : World) :
  querySelector "svg" (document_of E (html_of svgString)) = None ->
  (exists e w', renderSvgFullPage E svgString options w = (Err e, w'))
  /\ (puppeteer_installed E = true ->
      launch_outcome E = None ->
      newPage_outcome E = None ->
      existsSync E (tempDir E) = true
        \/ mkdirSync_outcome E (tempDir E) = None ->
      writeFile_outcome E (htmlPath E) (Utf8Text (html_of svgString)) = None ->
      setContent_outcome E (html_of svgString)
        (num_or (opt_timeout options) (Num 30000)) = None ->
      close_outcome E = None ->
      fst (renderSvgFullPage E svgString options w) = Err svg_not_found).
Proof.
  intros Hnone. split.
  - destruct (renderSvgFullPage E svgString options w) as [[res | e] w'] eqn:Hrun.
    + apply render_ok_inv in Hrun. destruct Hrun as (svg & Hq & _).
      rewrite Hnone in Hq. discriminate Hq.
    + exists e, w'. reflexivity.
  - intros Hinst Hlaunch Hpage Hdir Hwrite Hload Hclose.
    unfold htmlPath in Hwrite.
    cbv beta iota zeta delta
      [renderSvgFullPage initPuppeteer initPuppeteer_with bind call emit when
       ret throw try_finally writeFile measure].
    rewrite Hinst, Hlaunch, Hpage, Hwrite, Hload, Hnone, Hclose.
    destruct Hdir as [Hdir | Hdir].
    + rewrite Hdir. reflexivity.
    + rewrite Hdir. destruct (existsSync E (tempDir E)); reflexivity.
Qed.

Lemma render_fails_without_svg_element_witness :
  exists w',
    renderSvgFullPage measured_env "<p>no drawing</p>" no_options []
    = (Err svg_not_found, w').
Proof.
  destruct (render_fails_without_svg_element measured_env "<p>no drawing</p>"
              no_options []) as [_ Hcoop]; [vm_compute; reflexivity |].
  destruct (renderSvgFullPage measured_env "<p>no drawing</p>" no_options [])
    as [r w'] eqn:Hrun.
  exists w'. f_equal.
  apply Hcoop; try reflexivity. left; reflexivity.
Defined.

(** C2 as stated fails: the root of the markup [<div><svg></svg></div>] is a
    [div], and the render succeeds with the size of the inner [svg]. *)
Lemma non_svg_root_is_rendered :
  document_of wrapped_env (html_of wrapped_svg)
  = page_document viewport800x600
      [Elem "div" (mkRect 800 150) [Elem "svg" (mkRect 300 150) []]]
  /\ exists res w',
      renderSvgFullPage wrapped_env wrapped_svg no_options [] = (Ok res, w')
      /\ res_width res = 300%Z /\ res_height res = 150%Z.
Proof.
  split; [vm_compute; reflexivity |].
  eexists _, _. split; [vm_compute; reflexivity |].
  split; reflexivity.
Qed.

(** ** File-system effects *)

(** C6 fails on the first variant of [renderSvgFullPage]: called without
    [outputPath], it writes the page and the image under the [temp]
    directory of the project and logs to the console. *)
Theorem render_dumps_debug_files_by_default :
  opt_outputPath no_options = None
  /\ exists res w',
      renderSvgFullPage measured_env sized_svg no_options [] = (Ok res, w')
      /\ res_path res = None
      /\ In (EvWriteFile
               "/srv/dom-to-image/temp/html-2024-05-01T10-20-30-456Z.html"
               (Utf8Text (html_of sized_svg))) w'
      /\ In (EvWriteFile
               "/srv/dom-to-image/temp/png-2024-05-01T10-20-30-456Z.png"
               (Bytes png_signature)) w'
      /\ In EvConsoleLog w'.
Proof.
  split; [reflexivity |].
  eexists _, _. split; [vm_compute; reflexivity |].
  split; [reflexivity |].
  cbn [In]. repeat split; repeat first [left; reflexivity | right].
Qed.

(** Resolve the worlds of the statements peeled off by [step_ok]. *)
Ltac resolve_steps :=
  repeat match goal with
    | H : writeFile _ _ _ _ = _ |- _ => unfold writeFile in H
    | H : call _ _ _ = (Ok _, _) |- _ =>
        apply call_ok_inv in H; destruct H as [? ?]; subst
    | H : emit _ _ = (Ok _, _) |- _ => inversion H; subst; clear H
    | H : ret _ _ = (Ok _, _) |- _ => inversion H; subst; clear H
    | H : when ?b _ _ = (Ok _, _) |- _ => destruct b; cbn [when] in H
    | H : measure _ _ _ = (Ok _, _) |- _ =>
        apply measure_ok_inv in H; destruct H as (? & ? & ? & ?); subst
    | H : screenshot _ _ _ _ _ _ _ = (Ok _, _) |- _ =>
        unfold screenshot in H; inversion H; subst; clear H
    | H : initPuppeteer _ _ = (Ok _, _) |- _ =>
        unfold initPuppeteer, initPuppeteer_with in H;
        destruct (puppeteer_installed _); [| discriminate H]
    end.

(** Not only on that input: every successful run of the first variant has
    written both dumps, whatever the options. *)
Lemma successful_render_has_dumped (E : Env) (svgString : string)
  (options : RenderOptions) (w w' : World) (res : RenderResult) :
  renderSvgFullPage E svgString options w = (Ok res, w') ->
  In (EvWriteFile (htmlPath E) (Utf8Text (html_of svgString))) w'
  /\ In (EvWriteFile (debugPath E (res_format res)) (Bytes (res_buffer res))) w'.
Proof.
  unfold renderSvgFullPage, htmlPath, debugPath. intros H.
  do 2 step_ok H.
  apply try_finally_ok_inv in H. destruct H as (wb & H & Hclose).
  do 10 step_ok H.
  match goal with
  | Hsaved : match opt_outputPath options with _ => _ end _ = _ |- _ =>
      destruct (opt_outputPath options) as [p |];
      [destruct (str_truthy p); [step_ok Hsaved |] |]
  end.
  all: do 2 step_ok H.
  all: resolve_steps.
  all: cbn [In res_format res_buffer]; auto 20.
Qed.

(** Every file-system effect of the first variant is the requested file or
    one of the dumps. *)
Lemma render_file_effects (E : Env) (svgString : string)
  (options : RenderOptions) :
  emits_only (requested_or_dump E options)
             (renderSvgFullPage E svgString options).
Proof.
  unfold renderSvgFullPage. emits; cbn; auto.
Qed.

(** The second variant keeps to the specification: the only file it can
    write is the one named by [outputPath]. *)
Lemma second_variant_writes_only_outputPath (E : Env) (svgString : string)
  (options : RenderOptions) :
  emits_only (only_requested_file options)
             (SecondVariant.renderSvgFullPage E svgString options).
Proof.
  unfold SecondVariant.renderSvgFullPage. emits; cbn; auto.
Qed.

Corollary second_variant_writes_nothing_by_default (E : Env)
  (svgString : string) (options : RenderOptions) (w w' : World)
  (r : Result RenderResult) :
  opt_outputPath options = None ->
  SecondVariant.renderSvgFullPage E svgString options w = (r, w') ->
  forall p d, In (EvWriteFile p d) w' -> In (EvWriteFile p d) w.
Proof.
  intros Hnone Hrun p d Hin.
  destruct (second_variant_writes_only_outputPath E svgString options _ _ _ Hrun)
    as (mid & -> & F).
  apply in_app_or in Hin. destruct Hin as [Hin | Hin]; [| exact Hin].
  rewrite Forall_forall in F. specialize (F _ Hin). cbn in F.
  rewrite Hnone in F. discriminate F.
Qed.

(** ** OutputEncoder *)

(** C4 fails at quality 0: [options.quality || 1] takes 0 for a missing
    value, so a [jpeg] capture at quality 0 is taken at quality 100. *)
Theorem jpeg_quality_zero_is_encoded_as_100 :
  screenshotOptions_of "jpeg" (with_quality (Some (Num 0)))
  = {| shot_type := "jpeg";
       shot_fullPage := true;
       shot_omitBackground := true;
       shot_quality := Some (Num 100) |}.
Proof. reflexivity. Qed.

(** The handler keeps a quality of 0 (it is finite) and hands it on; the
    renderer then replaces it. *)
Lemma handler_quality_zero_is_encoded_as_100 :
  opt_quality (handler_options measured_env jpeg_quality0_request)
  = Some (Num 0)
  /\ shot_quality
       (screenshotOptions_of "jpeg"
          (handler_options measured_env jpeg_quality0_request))
     = Some (Num 100).
Proof. split; reflexivity. Qed.

(** The rest of the mapping is as specified.  Formats other than [jpeg]
    carry no quality at all. *)
Lemma other_formats_ignore_quality (outputType : string)
  (options : RenderOptions) :
  outputType <> "jpeg" ->
  screenshotOptions_of outputType options
  = {| shot_type := outputType;
       shot_fullPage := true;
       shot_omitBackground := true;
       shot_quality := None |}.
Proof.
  intros Hne. unfold screenshotOptions_of.
  destruct (String.eqb_spec outputType "jpeg") as [Heq | _];
    [contradiction | reflexivity].
Qed.

(** A positive quality (at most 1) is multiplied by 100 and rounded to
    the nearest integer, which lies between 0 and 100. *)
Lemma jpeg_positive_quality_is_scaled (q : Q) :
  (0 < q)%Q -> (q <= 1)%Q ->
  exists n : Z,
    shot_quality (screenshotOptions_of "jpeg" (with_quality (Some (Num q))))
    = Some (Num (inject_Z n))
    /\ n = Qfloor (q * 100 + (1 # 2))
    /\ (0 <= n <= 100)%Z.
Proof.
  intros Hpos Hle. exists (Qfloor (q * 100 + (1 # 2))).
  split; [| split; [reflexivity |]].
  - unfold screenshotOptions_of, with_quality, num_or, num_truthy, Qis_zero.
    cbn [String.eqb Ascii.eqb Bool.eqb opt_quality shot_quality].
    destruct (Z.eqb_spec (Qnum q) 0) as [Hz | _].
    + exfalso. unfold Qlt in Hpos. cbn in Hpos. lia.
    + reflexivity.
  - split.
    + apply (Qfloor_resp_le 0). apply Qle_trans with (q * 100)%Q.
      * apply Qmult_le_0_compat; [apply Qlt_le_weak; exact Hpos | discriminate].
      * rewrite <- (Qplus_0_r (q * 100)) at 1.
        apply Qplus_le_r. discriminate.
    + apply (Qfloor_resp_le _ (100 + (1 # 2))). apply Qplus_le_l.
      apply Qle_trans with (1 * 100)%Q; [| discriminate].
      apply Qmult_le_compat_r; [exact Hle | discriminate].
Qed.

(** ** FallbackTransport *)

(** C7 fails when the payload holds a comma: [split(',')[1]] keeps only the
    text between the first and the second comma. *)
Theorem data_uri_payload_is_cut_at_comma :
  svgDataUriToString
    "data:image/svg+xml;charset=utf-8,<svg><text>a,b</text></svg>"
  = "<svg><text>a".
Proof. reflexivity. Qed.

Lemma other_strings_are_unchanged (s : string) :
  startsWith s "data:image/svg+xml" = false -> svgDataUriToString s = s.
Proof.
  intros H. unfold svgDataUriToString. rewrite H. reflexivity.
Qed.

Lemma append_assoc (a b c : string) : (a ++ b) ++ c = a ++ (b ++ c).
Proof.
  induction a as [| x a IH]; cbn; [reflexivity | rewrite IH; reflexivity].
Qed.

Lemma strip_prefix_app (p s : string) : strip_prefix p (p ++ s) = Some s.
Proof.
  induction p as [| a p IH]; cbn; [reflexivity |].
  rewrite Ascii.eqb_refl. exact IH.
Qed.

Lemma split_no_sep (sep : ascii) (s : string) :
  has_char sep s = false -> String_split sep s = [s].
Proof.
  induction s as [| c s IH]; cbn; [reflexivity |].
  intros H. apply orb_false_elim in H. destruct H as [Hc Hs].
  rewrite Hc, (IH Hs). reflexivity.
Qed.

Lemma split_app_sep (sep : ascii) (a b : string) :
  has_char sep a = false ->
  String_split sep (a ++ String sep b) = a :: String_split sep b.
Proof.
  induction a as [| c a IH]; cbn.
  - intros _. rewrite Ascii.eqb_refl. reflexivity.
  - intros H. apply orb_false_elim in H. destruct H as [Hc Ha].
    rewrite Hc, (IH Ha). reflexivity.
Qed.

(** On a data URI whose payload holds no comma the payload is recovered:
    decoded when it decodes, as it is otherwise. *)
Lemma comma_free_payload_is_recovered (params payload : string) :
  has_char "," params = false ->
  has_char "," payload = false ->
  svgDataUriToString ("data:image/svg+xml" ++ params ++ "," ++ payload)
  = match decodeURIComponent payload with
    | Some decoded => decoded
    | None => payload
    end.
Proof.
  intros Hparams Hpayload. unfold svgDataUriToString, startsWith.
  rewrite strip_prefix_app. cbn [negb].
  replace ("data:image/svg+xml" ++ params ++ "," ++ payload)
    with (("data:image/svg+xml" ++ params) ++ String "," payload)
    by (rewrite append_assoc; reflexivity).
  rewrite split_app_sep.
  - rewrite (split_no_sep _ _ Hpayload). reflexivity.
  - clear Hpayload. cbn. exact Hparams.
Qed.

(** ** The [POST /render] handler *)

Lemma handler_without_svg (E : Env) (req : Request) (w : World) :
  lacks_svg req ->
  render_handler E req w
  = (Ok (json_response 400 [("error", JString svg_required)]), w).
Proof.
  intros [H | H]; unfold render_handler, try_catch; rewrite H; reflexivity.
Qed.

Lemma handler_unsupported_type (E : Env) (req : Request) (w : World) :
  includes supported_types (handler_outputType E req) = false ->
  render_handler E req w
  = (Ok (json_response 400
           [("error", JString (if match handler_svg req with
                                   | Some s => str_truthy s
                                   | None => false
                                   end
                               then outputType_invalid else svg_required))]),
     w).
Proof.
  intros H. unfold render_handler, try_catch.
  destruct (handler_svg req) as [svg |]; [| reflexivity].
  destruct (str_truthy svg); cbn [negb]; [| reflexivity].
  rewrite H. reflexivity.
Qed.

(** A request that passes the checks is handed to [renderSvgFullPage], and
    the response is built from what that call returns or throws. *)
Lemma handler_renders (E : Env) (req : Request) (svg : string) (w : World) :
  passes_validation E req svg ->
  render_handler E req w
  = match renderSvgFullPage E svg (handler_options E req) (EvConsoleLog :: w) with
    | (Ok result, w1) => (Ok (image_response result), EvConsoleLog :: w1)
    | (Err e, w1) => (Ok (error_response e), EvConsoleError :: w1)
    end.
Proof.
  intros (Hsvg & Htruthy & Htype).
  unfold render_handler, try_catch. rewrite Hsvg, Htruthy, Htype.
  cbn [negb]. unfold bind at 1. unfold emit at 1. unfold bind at 1.
  destruct (renderSvgFullPage E svg (handler_options E req) (EvConsoleLog :: w))
    as [[result | e] w1]; reflexivity.
Qed.

Lemma validation_cases (E : Env) (req : Request) :
  lacks_svg req
  \/ includes supported_types (handler_outputType E req) = false
  \/ exists svg, passes_validation E req svg.
Proof.
  unfold lacks_svg, passes_validation.
  destruct (handler_svg req) as [[| c s] |]; auto.
  destruct (includes supported_types (handler_outputType E req)); auto.
  right. right. exists (String c s). auto.
Qed.

(** C3, as the code has it: a request whose [outputType], once a missing or
    falsy value has been replaced by [png] and any other value converted to
    a string and lower-cased, is none of [png], [jpeg], [webp], is answered
    with status 400 and a JSON body holding an error message, and the world
    is left as it was: no engine is launched, [renderSvgFullPage] is not
    called. *)
Theorem unsupported_outputType_is_rejected
  (E : Env) (req : Request) (w : World) :
  includes supported_types (handler_outputType E req) = false ->
  exists msg,
    render_handler E req w
    = (Ok (json_response 400 [("error", JString msg)]), w).
Proof.
  intros H. eexists. apply handler_unsupported_type. exact H.
Qed.

Lemma unsupported_outputType_is_rejected_witness :
  exists msg,
    render_handler measured_env (json_request (Some sized_svg) (JString "gif")) []
    = (Ok (json_response 400 [("error", JString msg)]), []).
Proof.
  apply (unsupported_outputType_is_rejected measured_env
           (json_request (Some sized_svg) (JString "gif")) []).
  vm_compute. reflexivity.
Defined.

(** C3 as stated fails: [PNG] is none of [png], [jpeg], [webp], and the
    request is rendered (so is a request whose [outputType] is the empty
    string). *)
Lemma uppercase_outputType_is_rendered :
  includes supported_types "PNG" = false
  /\ exists resp w',
      render_handler measured_env
        (json_request (Some sized_svg) (JString "PNG")) [] = (Ok resp, w')
      /\ status resp = 200%Z
      /\ In EvLaunch w'.
Proof.
  split; [reflexivity |].
  eexists _, _. split; [vm_compute; reflexivity |].
  split; [reflexivity |]. cbn [In].
  repeat first [left; reflexivity | right].
Qed.

(** C5 as stated fails: the body of a validation failure holds the error
    message only, there is no [type] field. *)
Lemma validation_failure_has_no_type :
  exists fields,
    render_handler measured_env (json_request None JUndefined) []
    = (Ok {| status := 400; headers := []; body := JsonBody fields |}, [])
    /\ has_key "error" fields
    /\ ~ has_key "type" fields.
Proof.
  exists [("error", JString svg_required)].
  split; [reflexivity |]. split.
  - exists (JString svg_required). left. reflexivity.
  - intros (v & [Hin | []]). inversion Hin.
Qed.

(** C5, as the code has it: the handler always answers; the answer is the
    image with status 200, or a validation failure with status 400 whose
    JSON body is [{error}], or a failure of the render with status 500 whose
    JSON body is [{error, type}], made of the message and of the constructor
    name of what [renderSvgFullPage] threw. *)
Theorem failure_responses_shape (E : Env) (req : Request) (w : World) :
  exists resp w',
    render_handler E req w = (Ok resp, w')
    /\ ((status resp = 200%Z /\ exists result, resp = image_response result)
        \/ (status resp = 400%Z
            /\ (lacks_svg req
                \/ includes supported_types (handler_outputType E req) = false)
            /\ (exists msg, body resp = JsonBody [("error", JString msg)])
            /\ w' = w)
        \/ (status resp = 500%Z
            /\ exists svg e w1,
                passes_validation E req svg
                /\ renderSvgFullPage E svg (handler_options E req)
                     (EvConsoleLog :: w) = (Err e, w1)
                /\ body resp = JsonBody [("error", JString (err_message e));
                                         ("type", JString (err_name e))])).
Proof.
  destruct (validation_cases E req) as [Hsvg | [Htype | (svg & Hvalid)]].
  - rewrite (handler_without_svg E req w Hsvg). eexists _, _.
    split; [reflexivity |]. right. left. cbn. eauto 6.
  - rewrite (handler_unsupported_type E req w Htype). eexists _, _.
    split; [reflexivity |]. right. left. cbn. eauto 6.
  - rewrite (handler_renders E req svg w Hvalid).
    destruct (renderSvgFullPage E svg (handler_options E req) (EvConsoleLog :: w))
      as [[result | e] w1] eqn:Hrun; eexists _, _; (split; [reflexivity |]).
    + left. cbn. eauto.
    + right. right. cbn. split; [reflexivity |]. exists svg, e, w1. auto.
Qed.

Lemma supported_type_not_empty (t : string) :
  includes supported_types t = true -> str_truthy t = true.
Proof.
  destruct t; [discriminate | reflexivity].
Qed.

Lemma toLowerCase_truthy (s : string) :
  str_truthy (toLowerCase s) = str_truthy s.
Proof. destruct s; reflexivity. Qed.

(** C10: the handler lower-cases the [outputType] string it is given before
    it checks it.  When the lower-cased string is a supported format the
    request is not answered with status 400: it is passed to
    [renderSvgFullPage] with the lower-cased format, and a successful render
    is answered with that format. *)
Theorem mixed_case_outputType_is_accepted
  (E : Env) (req : Request) (svg s : string) (w : World) :
  handler_svg req = Some svg ->
  str_truthy svg = true ->
  body_field req body_outputType = JString s ->
  includes supported_types (toLowerCase s) = true ->
  handler_outputType E req = toLowerCase s
  /\ opt_outputType (handler_options E req) = Some (toLowerCase s)
  /\ exists resp w',
      render_handler E req w = (Ok resp, w')
      /\ status resp <> 400%Z
      /\ match renderSvgFullPage E svg (handler_options E req)
                 (EvConsoleLog :: w) with
         | (Ok result, _) =>
             res_format result = toLowerCase s /\ resp = image_response result
         | (Err e, _) => resp = error_response e
         end.
Proof.
  intros Hsvg Htruthy Hfield Hincl.
  assert (Hout : handler_outputType E req = toLowerCase s).
  { unfold handler_outputType. rewrite Hfield. cbn [truthy String_of].
    rewrite <- toLowerCase_truthy, (supported_type_not_empty _ Hincl).
    reflexivity. }
  split; [exact Hout |].
  split; [cbn [handler_options opt_outputType]; rewrite Hout; reflexivity |].
  assert (Hvalid : passes_validation E req svg).
  { unfold passes_validation. rewrite Hout. auto. }
  rewrite (handler_renders E req svg w Hvalid).
  destruct (renderSvgFullPage E svg (handler_options E req) (EvConsoleLog :: w))
    as [[result | e] w1] eqn:Hrun; eexists _, _;
    (split; [reflexivity |]); (split; [cbn; discriminate |]).
  - split; [| reflexivity].
    apply render_ok_inv in Hrun. destruct Hrun as (_ & _ & _ & _ & Hfmt & _).
    rewrite Hfmt. cbn [handler_options opt_outputType str_or]. rewrite Hout.
    rewrite (supported_type_not_empty _ Hincl). reflexivity.
  - reflexivity.
Qed.

Lemma mixed_case_outputType_is_accepted_witness :
  exists result w',
    render_handler measured_env
      (json_request (Some sized_svg) (JString "Jpeg")) []
    = (Ok (image_response result), w')
    /\ res_format result = "jpeg".
Proof.
  destruct (mixed_case_outputType_is_accepted measured_env
              (json_request (Some sized_svg) (JString "Jpeg"))
              sized_svg "Jpeg" [] eq_refl eq_refl eq_refl eq_refl)
    as (_ & _ & resp & w' & Hrun & _ & Hcase).
  destruct (renderSvgFullPage measured_env sized_svg
              (handler_options measured_env
                 (json_request (Some sized_svg) (JString "Jpeg")))
              [EvConsoleLog]) as [[result | e] w1] eqn:Hrender;
    [| vm_compute in Hrender; discriminate Hrender].
  destruct Hcase as [Hfmt Hresp]. subst resp.
  exists result, w'. split; [exact Hrun | exact Hfmt].
Defined.

(** ** DimensionHeuristic *)

Lemma strip_prefix_some (p s r : string) :
  strip_prefix p s = Some r -> s = p ++ r.
Proof.
  revert s. induction p as [| a p IH]; intros s; cbn.
  - intros H. inversion H. reflexivity.
  - destruct s as [| b s]; [discriminate |].
    destruct (Ascii.eqb_spec a b) as [-> | _]; [| discriminate].
    intros H. rewrite (IH _ H). reflexivity.
Qed.

Lemma take_digits_spec (s d r : string) :
  take_digits s = (d, r) ->
  s = d ++ r /\ digits_only d = true /\ starts_with_digit r = false.
Proof.
  revert d r. induction s as [| c s IH]; intros d r; cbn.
  - intros H. inversion H; subst. auto.
  - destruct (is_digit c) eqn:Hc.
    + destruct (take_digits s) as [d' r'] eqn:Htd. intros H. inversion H; subst.
      destruct (IH _ _ eq_refl) as (-> & Hd & Hr).
      cbn. rewrite Hc, Hd. auto.
    + intros H. inversion H; subst. cbn. auto.
Qed.

Lemma take_digits_app (d r : string) :
  digits_only d = true -> starts_with_digit r = false ->
  take_digits (d ++ r) = (d, r).
Proof.
  intros Hd Hr. induction d as [| c d IH]; cbn [append take_digits].
  - destruct r as [| c r]; [reflexivity |].
    cbn [starts_with_digit] in Hr. cbn [take_digits]. rewrite Hr. reflexivity.
  - cbn [digits_only] in Hd. apply andb_prop in Hd. destruct Hd as [Hc Hd].
    rewrite Hc, (IH Hd). reflexivity.
Qed.

Lemma digit_is_not_dquote (c : ascii) :
  is_digit c = true -> Ascii.eqb c dquote = false.
Proof.
  intros Hd. destruct (Ascii.eqb_spec c dquote) as [-> | _];
    [discriminate Hd | reflexivity].
Qed.

Lemma digit_run_head (s : string) :
  digit_run s -> exists c s', s = String c s' /\ is_digit c = true.
Proof.
  intros [Hne Hd]. destruct s as [| c s']; [contradiction |].
  cbn [digits_only] in Hd. apply andb_prop in Hd. exists c, s'. tauto.
Qed.

Lemma numeral_head (cap rest : string) :
  numeral_before cap rest ->
  exists c s', cap = String c s' /\ is_digit c = true.
Proof.
  intros [ip r Hip _ _ | ip fp r Hip _ _];
    destruct (digit_run_head _ Hip) as (c & s' & -> & Hc); cbn; eauto.
Qed.

Lemma starts_with_digit_take (s : string) :
  starts_with_digit s = false -> fst (take_digits s) = EmptyString.
Proof.
  destruct s as [| c s]; [reflexivity |].
  cbn [starts_with_digit take_digits]. intros ->. reflexivity.
Qed.

Lemma capture_numeral_sound (s cap : string) :
  capture_numeral s = Some cap ->
  exists rest, s = cap ++ rest /\ numeral_before cap rest.
Proof.
  unfold capture_numeral.
  destruct (take_digits s) as [ds r3] eqn:Hds.
  apply take_digits_spec in Hds. destruct Hds as (-> & Hd & Hr3).
  destruct ds as [| d0 ds]; [discriminate |].
  assert (Hrun : digit_run (String d0 ds)) by (split; [discriminate | exact Hd]).
  destruct r3 as [| c r4].
  - intros H. inversion H; subst. exists EmptyString.
    split; [reflexivity | constructor; auto].
  - destruct (Ascii.eqb c ".") eqn:Hdot.
    + apply Ascii.eqb_eq in Hdot. subst c.
      destruct (take_digits r4) as [fs r5] eqn:Hfs.
      pose proof (take_digits_spec _ _ _ Hfs) as (-> & Hf & Hr5).
      destruct fs as [| f0 fs]; intros H; inversion H; subst.
      * exists (String "." r5). split; [reflexivity |].
        constructor; auto; cbn [starts_with_fraction append];
          rewrite ?Hr5; reflexivity.
      * exists r5. split.
        -- cbn [append]. f_equal. rewrite append_assoc. reflexivity.
        -- apply (numeral_fraction (String d0 ds) (String f0 fs) r5); auto.
           split; [discriminate | exact Hf].
    + intros H. inversion H; subst. exists (String c r4).
      split; [reflexivity |].
      constructor; auto; cbn [starts_with_fraction]; rewrite Hdot; reflexivity.
Qed.

Lemma capture_numeral_complete (cap rest : string) :
  numeral_before cap rest -> capture_numeral (cap ++ rest) = Some cap.
Proof.
  intros [ip r [Hne Hip] Hr Hfrac | ip fp r [Hne Hip] [Hnf Hfp] Hr];
    unfold capture_numeral.
  - rewrite (take_digits_app _ _ Hip Hr).
    destruct ip as [| i0 ip]; [contradiction |].
    destruct r as [| c r4]; [reflexivity |].
    cbn [starts_with_fraction] in Hfrac.
    destruct (Ascii.eqb c "."); [| reflexivity].
    cbn [andb] in Hfrac.
    pose proof (starts_with_digit_take _ Hfrac) as Hfs.
    destruct (take_digits r4) as [fs r5]. cbn [fst] in Hfs. subst fs.
    reflexivity.
  - rewrite !append_assoc.
    rewrite (take_digits_app ip ("." ++ fp ++ r) Hip eq_refl).
    destruct ip as [| i0 ip]; [contradiction |].
    cbn [append]. rewrite Ascii.eqb_refl.
    rewrite (take_digits_app _ _ Hfp Hr).
    destruct fp as [| f0 fp]; [contradiction | reflexivity].
Qed.

Lemma skip_quote_numeral (q cap rest : string) :
  q = EmptyString \/ q = dq ->
  numeral_before cap rest ->
  skip_quote (q ++ cap ++ rest) = cap ++ rest.
Proof.
  intros Hq Hnum. destruct (numeral_head _ _ Hnum) as (c & s' & -> & Hc).
  destruct Hq as [-> | ->]; cbn [append skip_quote dq].
  - rewrite (digit_is_not_dquote _ Hc). reflexivity.
  - rewrite Ascii.eqb_refl. reflexivity.
Qed.

Lemma skip_quote_cases (s : string) :
  exists q, s = q ++ skip_quote s /\ (q = EmptyString \/ q = dq).
Proof.
  destruct s as [| c r]; cbn [skip_quote].
  - exists EmptyString. auto.
  - destruct (Ascii.eqb_spec c dquote) as [-> | _].
    + exists dq. auto.
    + exists EmptyString. auto.
Qed.

(** The anchored attempt succeeds exactly on the occurrences. *)
Lemma match_here_iff (attr s cap : string) :
  match_here attr s = Some cap <-> occurrence_here attr s cap.
Proof.
  unfold match_here, occurrence_here. split.
  - destruct (strip_prefix (attr ++ "=") s) as [r1 |] eqn:Hp; [| discriminate].
    apply strip_prefix_some in Hp. intros Hcap.
    apply capture_numeral_sound in Hcap. destruct Hcap as (rest & Hr2 & Hnum).
    destruct (skip_quote_cases r1) as (q & Hr1 & Hq).
    exists q, rest. rewrite <- Hr2, <- Hr1, <- append_assoc. auto.
  - intros (q & rest & -> & Hq & Hnum).
    rewrite <- append_assoc, strip_prefix_app.
    rewrite (skip_quote_numeral _ _ _ Hq Hnum).
    apply capture_numeral_complete. exact Hnum.
Qed.

Lemma regex_search_unfold (attr s : string) :
  regex_search attr s
  = match match_here attr s with
    | Some cap => Some cap
    | None =>
        match s with
        | EmptyString => None
        | String _ s' => regex_search attr s'
        end
    end.
Proof. destruct s; reflexivity. Qed.

Lemma occurs_at_0 (attr s cap : string) :
  occurs_at attr s 0 cap <-> occurrence_here attr s cap.
Proof.
  split.
  - intros (pre & tail & -> & Hlen & Hocc).
    destruct pre; [exact Hocc | discriminate Hlen].
  - intros Hocc. exists EmptyString, s. auto.
Qed.

Lemma occurs_at_S (attr s cap : string) (c : ascii) (i : nat) :
  occurs_at attr (String c s) (S i) cap <-> occurs_at attr s i cap.
Proof.
  split.
  - intros (pre & tail & Heq & Hlen & Hocc).
    destruct pre as [| c' pre]; [discriminate Hlen |].
    cbn in Heq, Hlen. inversion Heq; subst. exists pre, tail. auto.
  - intros (pre & tail & -> & Hlen & Hocc).
    exists (String c pre), tail. cbn. auto.
Qed.

Lemma occurs_at_empty (attr cap : string) (i : nat) :
  ~ occurs_at attr EmptyString (S i) cap.
Proof.
  intros (pre & tail & Heq & Hlen & _).
  destruct pre; [discriminate Hlen | discriminate Heq].
Qed.

(** The search returns the numeral of the leftmost occurrence. *)
Lemma regex_search_some_iff (attr s cap : string) :
  regex_search attr s = Some cap <-> exists i, first_occurrence attr s i cap.
Proof.
  split.
  - revert cap. induction s as [| c s IH]; intros cap;
      rewrite regex_search_unfold;
      destruct (match_here attr _) as [cap0 |] eqn:Hhere; intros H;
      try discriminate H.
    + inversion H; subst. exists 0%nat. split; [| intros j ? Hj; lia].
      apply occurs_at_0, match_here_iff. exact Hhere.
    + inversion H; subst. exists 0%nat. split; [| intros j ? Hj; lia].
      apply occurs_at_0, match_here_iff. exact Hhere.
    + destruct (IH _ H) as (i & Hocc & Hmin). exists (S i). split.
      * apply occurs_at_S. exact Hocc.
      * intros [| j] cap' Hj Hj'.
        -- apply occurs_at_0, match_here_iff in Hj'. congruence.
        -- apply occurs_at_S in Hj'. apply (Hmin j cap'); [lia | exact Hj'].
  - intros (i & Hocc & Hmin). revert s Hocc Hmin.
    induction i as [| i IH]; intros s Hocc Hmin; rewrite regex_search_unfold.
    + apply occurs_at_0, match_here_iff in Hocc. rewrite Hocc. reflexivity.
    + destruct (match_here attr s) as [cap0 |] eqn:Hhere.
      * exfalso. apply (Hmin 0%nat cap0); [lia |].
        apply occurs_at_0, match_here_iff. exact Hhere.
      * destruct s as [| c s]; [destruct (occurs_at_empty _ _ _ Hocc) |].
        apply IH.
        -- apply occurs_at_S in Hocc. exact Hocc.
        -- intros j cap' Hj Hj'. apply (Hmin (S j) cap'); [lia |].
           apply occurs_at_S. exact Hj'.
Qed.

Lemma regex_search_none_iff (attr s : string) :
  regex_search attr s = None <-> no_occurrence attr s.
Proof.
  split.
  - induction s as [| c s IH]; intros Hnone i cap Hocc;
      rewrite regex_search_unfold in Hnone;
      destruct (match_here attr _) as [cap0 |] eqn:Hhere;
      try discriminate Hnone;
      destruct i as [| i];
      try (apply occurs_at_0, match_here_iff in Hocc; congruence).
    + exact (occurs_at_empty _ _ _ Hocc).
    + apply occurs_at_S in Hocc. exact (IH Hnone i cap Hocc).
  - intros Hno. destruct (regex_search attr s) as [cap |] eqn:Hs; [| reflexivity].
    apply regex_search_some_iff in Hs. destruct Hs as (i & Hocc & _).
    destruct (Hno i cap Hocc).
Qed.



(** C8, as the code has it: each dimension is found on its own.  The width
    is the value of the numeral at the leftmost place of the text where
    [width=], an optional double quote and a decimal numeral follow one
    another, and 300 when there is no such place; the height likewise with
    [height=] and 150. *)
Theorem extractSvgDimensions_first_numeric_occurrence (s : string) :
  (forall i cap, first_occurrence "width" s i cap ->
                 dim_width (extractSvgDimensions s) = parseFloat cap)
  /\ (no_occurrence "width" s ->
      dim_width (extractSvgDimensions s) = Num 300)
  /\ (forall i cap, first_occurrence "height" s i cap ->
                    dim_height (extractSvgDimensions s) = parseFloat cap)
  /\ (no_occurrence "height" s ->
      dim_height (extractSvgDimensions s) = Num 150).
Proof.
  unfold extractSvgDimensions. cbn [dim_width dim_height].
  repeat split.
  - intros i cap Hfirst.
    assert (H : regex_search "width" s = Some cap)
      by (apply regex_search_some_iff; exists i; exact Hfirst).
    rewrite H. reflexivity.
  - intros Hno. apply regex_search_none_iff in Hno. rewrite Hno. reflexivity.
  - intros i cap Hfirst.
    assert (H : regex_search "height" s = Some cap)
      by (apply regex_search_some_iff; exists i; exact Hfirst).
    rewrite H. reflexivity.
  - intros Hno. apply regex_search_none_iff in Hno. rewrite Hno. reflexivity.
Qed.

(** In [<g stroke-width="2.5"><svg width=640 height="480px"></g>] the
    leftmost numeric [width=] is the one inside [stroke-width], and the
    height is read up to the unit. *)
Lemma extractSvgDimensions_first_numeric_occurrence_witness :
  (exists i, first_occurrence "width" loose_svg i "2.5")
  /\ (exists i, first_occurrence "height" loose_svg i "480")
  /\ dim_width (extractSvgDimensions loose_svg) = Num (25 # 10)
  /\ dim_height (extractSvgDimensions loose_svg) = Num 480.
Proof.
  assert (Hw : exists i, first_occurrence "width" loose_svg i "2.5")
    by (apply regex_search_some_iff; vm_compute; reflexivity).
  assert (Hh : exists i, first_occurrence "height" loose_svg i "480")
    by (apply regex_search_some_iff; vm_compute; reflexivity).
  split; [exact Hw |]. split; [exact Hh |].
  destruct Hw as (i & Hw). destruct Hh as (j & Hh).
  destruct (extractSvgDimensions_first_numeric_occurrence loose_svg)
    as (Hwidth & _ & Hheight & _).
  rewrite (Hwidth i "2.5" Hw), (Hheight j "480" Hh).
  split; vm_compute; reflexivity.
Defined.

(** C8 as stated fails: [<svg height="50"></svg>] has no width, and the
    result is 300 x 50, not 300 x 150. *)
Lemma missing_width_keeps_height :
  no_occurrence "width" height_only_svg
  /\ extractSvgDimensions height_only_svg
     = {| dim_width := Num 300; dim_height := Num 50 |}
  /\ extractSvgDimensions height_only_svg
     <> {| dim_width := Num 300; dim_height := Num 150 |}.
Proof.
  split; [apply regex_search_none_iff; vm_compute; reflexivity |].
  split; [vm_compute; reflexivity |].
  vm_compute. intros H. inversion H.
Qed.

(* ================================================================== *)
(** * Further properties *)
(* ================================================================== *)

(** ** The first variant of [renderSvgFullPage], path by path *)

(** Everything a run that ended normally fixes: the element measured, the
    fields of the result and the whole of the world. *)
Lemma render_ok_full_inv (E : Env) (svgString : string)
  (options : RenderOptions) (w w' : World) (res : RenderResult) :
  renderSvgFullPage E svgString options w = (Ok res, w') ->
  (exists svg,
      querySelector "svg" (document_of E (html_of svgString)) = Some svg
      /\ res_width res = Math_ceil (Math_max1 (rect_width (rect_of svg)))
      /\ res_height res = Math_ceil (Math_max1 (rect_height (rect_of svg))))
  /\ res_format res = str_or (opt_outputType options) "png"
  /\ res_path res = requested_path options
  /\ res_debugPath res = Some (debugPath E (res_format res))
  /\ screenshot_outcome E (html_of svgString) (res_width res) (res_height res)
       (num_or (opt_deviceScaleFactor options) (Num 2))
       (screenshotOptions_of (res_format res) options)
     = Ok (res_buffer res)
  /\ w' = (success_trace E svgString options res ++ w)%list.
Proof.
  unfold renderSvgFullPage, success_trace, saved_events, requested_path,
    mkdir_events, htmlPath, debugPath.
  intros H. do 2 step_ok H.
  apply try_finally_ok_inv in H. destruct H as (wb & H & Hclose).
  do 10 step_ok H.
  match goal with
  | Hsaved : match opt_outputPath options with _ => _ end _ = _ |- _ =>
      destruct (opt_outputPath options) as [p |];
      [destruct (str_truthy p); [step_ok Hsaved |] |]
  end.
  all: do 2 step_ok H.
  all: destruct (existsSync E (tempDir E)); cbn [negb when] in *.
  all: match goal with
       | Hs : screenshot _ _ _ _ _ _ _ = _ |- _ =>
           pose proof (screenshot_ok_inv _ _ _ _ _ _ _ _ _ Hs) as Hshot
       end.
  all: resolve_steps.
  all: cbn [res_width res_height res_format res_path res_debugPath res_buffer
            box_width box_height app] in *.
  all: repeat split; eauto.
Qed.

(** X1: a successful run of [renderSvgFullPage] has done exactly this, in
    this order: launch, new page, the [temp] directory if it was missing,
    the dump of the page, the load with the timeout (30000 unless a truthy
    one is given), the viewport set to the size of the result at the scale
    factor (2 unless a truthy one is given), one full-page screenshot with a
    transparent background, the requested file if any, the dump of the
    image, the close; and nothing else. *)
Theorem successful_render_trace (E : Env) (svgString : string)
  (options : RenderOptions) (w w' : World) (res : RenderResult) :
  renderSvgFullPage E svgString options w = (Ok res, w') ->
  w' = (success_trace E svgString options res ++ w)%list
  /\ shot_fullPage (screenshotOptions_of (res_format res) options) = true
  /\ shot_omitBackground (screenshotOptions_of (res_format res) options) = true.
Proof.
  intros H. apply render_ok_full_inv in H.
  destruct H as (_ & _ & _ & _ & _ & Hw). auto.
Qed.

Lemma successful_render_trace_witness :
  exists res w',
    renderSvgFullPage measured_env sized_svg (with_path "out.png") []
    = (Ok res, w')
    /\ w' = success_trace measured_env sized_svg (with_path "out.png") res
    /\ saved_events res = [EvWriteFile "out.png" (Bytes png_signature)].
Proof.
  destruct (renderSvgFullPage measured_env sized_svg (with_path "out.png") [])
    as [[res | e] w'] eqn:Hrun; [| vm_compute in Hrun; discriminate Hrun].
  exists res, w'. split; [reflexivity |].
  destruct (successful_render_trace measured_env sized_svg
              (with_path "out.png") [] w' res Hrun) as (Hw & _ & _).
  split; [rewrite Hw; apply app_nil_r |].
  vm_compute in Hrun. inversion Hrun; subst. reflexivity.
Defined.

Lemma Qceiling_lt_succ (x : Q) : (inject_Z (Qceiling x) < x + 1)%Q.
Proof.
  pose proof (Qceiling_lt x) as H.
  unfold Z.sub in H. rewrite inject_Z_plus, inject_Z_opp in H.
  apply (Qplus_lt_l _ _ (- inject_Z 1)).
  setoid_replace (x + 1 + - inject_Z 1)%Q with x by (unfold inject_Z; ring).
  exact H.
Qed.

(** X2: the size of a successful result covers the box measured on the
    page and exceeds the box (clamped to 1) by less than one pixel in each
    dimension. *)
Theorem measured_box_fits_result (E : Env) (svgString : string)
  (options : RenderOptions) (w w' : World) (res : RenderResult) :
  renderSvgFullPage E svgString options w = (Ok res, w') ->
  exists svg,
    querySelector "svg" (document_of E (html_of svgString)) = Some svg
    /\ (rect_width (rect_of svg) <= inject_Z (res_width res))%Q
    /\ (inject_Z (res_width res) < Qmax (rect_width (rect_of svg)) 1 + 1)%Q
    /\ (rect_height (rect_of svg) <= inject_Z (res_height res))%Q
    /\ (inject_Z (res_height res) < Qmax (rect_height (rect_of svg)) 1 + 1)%Q.
Proof.
  intros H. apply render_ok_full_inv in H.
  destruct H as ((svg & Hq & Hw & Hh) & _).
  exists svg. rewrite Hw, Hh. unfold Math_ceil, Math_max1.
  split; [exact Hq |].
  repeat split.
  - eapply Qle_trans; [apply Q.le_max_l | apply Qle_ceiling].
  - apply Qceiling_lt_succ.
  - eapply Qle_trans; [apply Q.le_max_l | apply Qle_ceiling].
  - apply Qceiling_lt_succ.
Qed.

Lemma measured_box_fits_result_witness :
  exists res w',
    renderSvgFullPage measured_env sized_svg no_options [] = (Ok res, w')
    /\ ((241 # 2) <= inject_Z (res_width res))%Q
    /\ (inject_Z (res_width res) < (241 # 2) + 1)%Q.
Proof.
  destruct (renderSvgFullPage measured_env sized_svg no_options [])
    as [[res | e] w'] eqn:Hrun; [| vm_compute in Hrun; discriminate Hrun].
  exists res, w'. split; [reflexivity |].
  destruct (measured_box_fits_result measured_env sized_svg no_options
              [] w' res Hrun) as (svg & Hq & Hlo & Hhi & _).
  vm_compute in Hq. inversion Hq; subst svg.
  cbn [rect_of rect_width] in Hlo, Hhi. split; [exact Hlo | exact Hhi].
Defined.

(** X3: on success [path] is the [outputPath] option when that is a
    non-empty string, and then the returned buffer is what was written
    there; it is [null] otherwise, and then nothing but the two dumps is
    written. *)
Theorem outputPath_is_written_and_reported (E : Env) (svgString : string)
  (options : RenderOptions) (w w' : World) (res : RenderResult) :
  renderSvgFullPage E svgString options w = (Ok res, w') ->
  res_path res = requested_path options
  /\ (forall p, res_path res = Some p ->
                In (EvWriteFile p (Bytes (res_buffer res))) w')
  /\ (res_path res = None ->
      forall p d, In (EvWriteFile p d) w' ->
                  In (EvWriteFile p d) w
                  \/ p = htmlPath E \/ p = debugPath E (res_format res)).
Proof.
  intros H. apply render_ok_full_inv in H.
  destruct H as (_ & _ & Hpath & _ & _ & ->).
  split; [exact Hpath |]. unfold success_trace, saved_events. split.
  - intros p Hp. rewrite Hp. cbn [app In]. auto 10.
  - intros Hnone p d Hin. rewrite Hnone in Hin. unfold mkdir_events in Hin.
    destruct (existsSync E (tempDir E)); cbn [app In] in Hin;
      repeat match goal with
        | Hor : _ \/ _ |- _ => destruct Hor as [Hor | Hor]
        | Heq : _ = EvWriteFile _ _ |- _ => inversion Heq; subst; clear Heq
        end; auto; try discriminate.
Qed.

Lemma outputPath_is_written_and_reported_witness :
  exists res w',
    renderSvgFullPage measured_env sized_svg (with_path "out.png") []
    = (Ok res, w')
    /\ res_path res = Some "out.png"
    /\ In (EvWriteFile "out.png" (Bytes (res_buffer res))) w'.
Proof.
  destruct (renderSvgFullPage measured_env sized_svg (with_path "out.png") [])
    as [[res | e] w'] eqn:Hrun; [| vm_compute in Hrun; discriminate Hrun].
  exists res, w'. split; [reflexivity |].
  destruct (outputPath_is_written_and_reported measured_env sized_svg
              (with_path "out.png") [] w' res Hrun) as (Hpath & Hwritten & _).
  split; [exact Hpath | apply Hwritten; exact Hpath].
Defined.

(** X4: when the engine cannot be obtained the call fails with the error of
    that step and does nothing else: without Puppeteer the world is
    untouched, and after a launch that throws, the launch is the only call
    made; no page is opened, no file is written and [browser.close()] is
    not called. *)
Theorem unavailable_engine_fails_before_any_work (E : Env)
  (svgString : string) (options : RenderOptions) (w : World) :
  (puppeteer_installed E = false ->
   renderSvgFullPage E svgString options w
   = (Err (mkError "Error" "Puppeteer is not installed.
Run: npm install puppeteer"), w))
  /\ (forall e, puppeteer_installed E = true ->
                launch_outcome E = Some e ->
                renderSvgFullPage E svgString options w
                = (Err e, EvLaunch :: w)).
Proof.
  split.
  - intros Hinst.
    unfold renderSvgFullPage, initPuppeteer, initPuppeteer_with, bind at 1.
    rewrite Hinst. reflexivity.
  - intros e Hinst Hlaunch.
    unfold renderSvgFullPage, initPuppeteer, initPuppeteer_with.
    rewrite Hinst, Hlaunch. reflexivity.
Qed.

Lemma unavailable_engine_fails_before_any_work_witness :
  (exists e, renderSvgFullPage missing_engine_env sized_svg no_options []
             = (Err e, []))
  /\ renderSvgFullPage (env_with true (Some target_closed) None no_failure)
       sized_svg no_options []
     = (Err target_closed, [EvLaunch]).
Proof.
  split.
  - destruct (unavailable_engine_fails_before_any_work missing_engine_env
                sized_svg no_options []) as [H _].
    eexists. apply H. reflexivity.
  - destruct (unavailable_engine_fails_before_any_work
                (env_with true (Some target_closed) None no_failure)
                sized_svg no_options []) as [_ H].
    apply H; reflexivity.
Defined.

(** X5: an error thrown by [browser.close()] replaces the outcome of the
    call, also the result of a render that went through. *)
Theorem failing_close_masks_outcome (E : Env) (svgString : string)
  (options : RenderOptions) (w : World) (e : Error) :
  puppeteer_installed E = true ->
  launch_outcome E = None ->
  close_outcome E = Some e ->
  fst (renderSvgFullPage E svgString options w) = Err e.
Proof.
  intros Hinst Hlaunch Hclose.
  destruct (renderSvgFullPage E svgString options w) as [r w'] eqn:H.
  unfold renderSvgFullPage, initPuppeteer, initPuppeteer_with in H.
  rewrite Hinst, Hlaunch, Hclose in H.
  apply bind_inv in H.
  destruct H as [(u & w0 & Hinit & H) | (e0 & Hinit & _)];
    [| discriminate Hinit].
  apply bind_inv in H.
  destruct H as [(u' & w1 & Hcall & H) | (e0 & Hcall & _)];
    [| discriminate Hcall].
  apply try_finally_call_inv in H. destruct H as (rb & w2 & _ & _ & Hr).
  exact Hr.
Qed.

Lemma failing_close_masks_outcome_witness :
  fst (renderSvgFullPage failing_close_env sized_svg no_options [])
  = Err target_closed
  /\ exists res w', renderSvgFullPage measured_env sized_svg no_options []
                    = (Ok res, w').
Proof.
  split.
  - apply (failing_close_masks_outcome failing_close_env sized_svg no_options
             [] target_closed); reflexivity.
  - eexists _, _. vm_compute. reflexivity.
Defined.

(** X6: when the dump of the page cannot be written, the render fails with
    the error of that write before the page is loaded: the engine is closed
    and nothing is measured or captured, although no file was asked for. *)
Theorem failing_dump_aborts_render (E : Env) (svgString : string)
  (options : RenderOptions) (w : World) (e : Error) :
  puppeteer_installed E = true ->
  launch_outcome E = None ->
  newPage_outcome E = None ->
  existsSync E (tempDir E) = true ->
  writeFile_outcome E (htmlPath E) (Utf8Text (html_of svgString)) = Some e ->
  close_outcome E = None ->
  renderSvgFullPage E svgString options w
  = (Err e,
     EvClose :: EvWriteFile (htmlPath E) (Utf8Text (html_of svgString))
     :: EvConsoleLog :: EvNewPage :: EvLaunch :: w).
Proof.
  intros Hinst Hlaunch Hpage Hdir Hwrite Hclose. unfold htmlPath in *.
  cbv beta iota zeta delta
    [renderSvgFullPage initPuppeteer initPuppeteer_with bind call emit when
     ret throw try_finally writeFile].
  rewrite Hinst, Hlaunch, Hpage, Hdir, Hwrite, Hclose. reflexivity.
Qed.

Lemma failing_dump_aborts_render_witness :
  opt_outputPath no_options = None
  /\ exists w',
      renderSvgFullPage read_only_env sized_svg no_options []
      = (Err read_only_fs, w')
      /\ ~ In (EvSetContent (html_of sized_svg) (Num 30000)) w'.
Proof.
  split; [reflexivity |].
  eexists. split.
  - apply (failing_dump_aborts_render read_only_env sized_svg no_options []
             read_only_fs); reflexivity.
  - cbn [In]. intros H.
    repeat match goal with
      | Hor : _ \/ _ |- _ => destruct Hor as [Hor | Hor]
      end; try discriminate H; try contradiction.
Defined.

(** ** The convenience wrappers *)

(** A wrapper returns the buffer of a render whose format is the one it
    fixes, and that render has taken the screenshot with that format. *)
Lemma wrapper_inv (E : Env) (svgString : string) (options : RenderOptions)
  (t : string) (w w' : World) (buf : Buffer) :
  str_truthy t = true ->
  bind (renderSvgFullPage E svgString (with_outputType options t))
       (fun result => ret (res_buffer result)) w = (Ok buf, w') ->
  exists res,
    renderSvgFullPage E svgString (with_outputType options t) w = (Ok res, w')
    /\ res_buffer res = buf
    /\ res_format res = t
    /\ In (EvScreenshot (screenshotOptions_of t (with_outputType options t))) w'.
Proof.
  intros Ht H. apply bind_ok_inv in H. destruct H as (res & w1 & Hrun & Hret).
  inversion Hret; subst. exists res.
  pose proof (render_ok_full_inv _ _ _ _ _ _ Hrun)
    as (_ & Hfmt & _ & _ & _ & Hw).
  cbn [with_outputType opt_outputType str_or] in Hfmt. rewrite Ht in Hfmt.
  repeat split; auto.
  rewrite Hw. unfold success_trace. rewrite Hfmt.
  apply in_or_app. left. apply in_or_app. right.
  apply in_or_app. right. apply in_or_app. left. left. reflexivity.
Qed.

(** X7: [svgToPng] and [svgToWebp] capture in their own format and without
    a quality, whatever [outputType] and [quality] the caller's options
    hold. *)
Theorem svgToPng_and_svgToWebp_fix_the_format (E : Env) (svgString : string)
  (options : RenderOptions) (w w' : World) (buf : Buffer) :
  (svgToPng E svgString options w = (Ok buf, w') ->
   In (EvScreenshot (plain_capture "png")) w')
  /\ (svgToWebp E svgString options w = (Ok buf, w') ->
      In (EvScreenshot (plain_capture "webp")) w').
Proof.
  split; intros H; apply wrapper_inv in H; try reflexivity;
    destruct H as (res & _ & _ & _ & Hin); exact Hin.
Qed.

Lemma svgToPng_and_svgToWebp_fix_the_format_witness :
  exists buf w',
    svgToPng measured_env sized_svg jpeg_half_options [] = (Ok buf, w')
    /\ In (EvScreenshot (plain_capture "png")) w'.
Proof.
  destruct (svgToPng measured_env sized_svg jpeg_half_options [])
    as [[buf | e] w'] eqn:Hrun; [| vm_compute in Hrun; discriminate Hrun].
  exists buf, w'. split; [reflexivity |].
  destruct (svgToPng_and_svgToWebp_fix_the_format measured_env sized_svg
              jpeg_half_options [] w' buf) as [Hpng _].
  exact (Hpng Hrun).
Defined.

(** X8: [svgToJpeg] captures a [jpeg], whatever [outputType] the caller's
    options hold, at the quality [Math.round((quality || 1) * 100)]. *)
Theorem svgToJpeg_fixes_the_format (E : Env) (svgString : string)
  (options : RenderOptions) (w w' : World) (buf : Buffer) :
  svgToJpeg E svgString options w = (Ok buf, w') ->
  In (EvScreenshot (jpeg_capture options)) w'.
Proof.
  intros H. apply wrapper_inv in H; [| reflexivity].
  destruct H as (res & _ & _ & _ & Hin). exact Hin.
Qed.

Lemma svgToJpeg_fixes_the_format_witness :
  exists buf w',
    svgToJpeg measured_env sized_svg (with_quality (Some (Num (1 # 2)))) []
    = (Ok buf, w')
    /\ In (EvScreenshot
             {| shot_type := "jpeg";
                shot_fullPage := true;
                shot_omitBackground := true;
                shot_quality := Some (Num 50) |}) w'.
Proof.
  destruct (svgToJpeg measured_env sized_svg (with_quality (Some (Num (1 # 2)))) [])
    as [[buf | e] w'] eqn:Hrun; [| vm_compute in Hrun; discriminate Hrun].
  exists buf, w'. split; [reflexivity |].
  exact (svgToJpeg_fixes_the_format measured_env sized_svg
           (with_quality (Some (Num (1 # 2)))) [] w' buf Hrun).
Defined.

(** ** The second variant of [renderSvgFullPage] *)

(** X9: the second variant closes the engine on every exit path as well:
    after a launch that went through, the world is the launch, the events
    of the session, then the one call of [browser.close()]. *)
Theorem second_variant_closes_on_every_exit
  (E : Env) (svgString : string) (options : RenderOptions)
  (w w' : World) (r : Result RenderResult) :
  puppeteer_installed E = true ->
  launch_outcome E = None ->
  SecondVariant.renderSvgFullPage E svgString options w = (r, w') ->
  exists mid,
    w' = (EvClose :: mid ++ EvLaunch :: w)%list /\ Forall inside_session mid.
Proof.
  intros Hinst Hlaunch H.
  unfold SecondVariant.renderSvgFullPage, SecondVariant.initPuppeteer,
    initPuppeteer_with in H.
  rewrite Hinst, Hlaunch in H.
  apply bind_inv in H.
  destruct H as [(u & w0 & Hinit & H) | (e & Hinit & _)];
    [| discriminate Hinit].
  inversion Hinit; subst w0; clear Hinit.
  apply bind_inv in H.
  destruct H as [(u' & w0 & Hcall & H) | (e & Hcall & _)];
    [| discriminate Hcall].
  inversion Hcall; subst w0; clear Hcall.
  apply try_finally_call_inv in H.
  destruct H as (rb & w1 & Hbody & -> & _).
  revert Hbody. generalize (EvLaunch :: w). intros w0 Hbody.
  match type of Hbody with
  | ?m w0 = _ =>
      assert (Hm : emits_only inside_session m) by (emits; split; discriminate)
  end.
  destruct (Hm _ _ _ Hbody) as (mid & -> & F). exists mid. auto.
Qed.

Lemma second_variant_closes_on_every_exit_witness :
  exists e mid,
    SecondVariant.renderSvgFullPage measured_env "<p>no drawing</p>"
      no_options []
    = (Err e, (EvClose :: mid ++ [EvLaunch])%list)
    /\ Forall inside_session mid.
Proof.
  destruct (SecondVariant.renderSvgFullPage measured_env "<p>no drawing</p>"
              no_options []) as [r w'] eqn:Hrun.
  destruct (second_variant_closes_on_every_exit measured_env
              "<p>no drawing</p>" no_options [] w' r eq_refl eq_refl Hrun)
    as (mid & -> & F).
  destruct r as [res | e]; [vm_compute in Hrun; discriminate Hrun |].
  exists e, mid. split; [reflexivity | exact F].
Defined.

(** X10: a successful run of the second variant returns the ceiling of the
    box of the first [svg] element of its page, at least 1 in each
    dimension, the format [outputType || 'png'] and no debug path. *)
Theorem second_variant_result_is_measured_extent
  (E : Env) (svgString : string) (options : RenderOptions)
  (w w' : World) (res : RenderResult) :
  SecondVariant.renderSvgFullPage E svgString options w = (Ok res, w') ->
  exists svg,
    querySelector "svg" (document_of E (SecondVariant.html_of svgString))
    = Some svg
    /\ res_width res = Qceiling (Qmax (rect_width (rect_of svg)) 1)
    /\ res_height res = Qceiling (Qmax (rect_height (rect_of svg)) 1)
    /\ (1 <= res_width res)%Z
    /\ (1 <= res_height res)%Z
    /\ res_format res = str_or (opt_outputType options) "png"
    /\ res_debugPath res = None.
Proof.
  unfold SecondVariant.renderSvgFullPage. intros H.
  do 2 step_ok H.
  apply try_finally_ok_inv in H. destruct H as (wb & H & _).
  do 3 step_ok H.
  match goal with
  | Hm : measure _ _ _ = _ |- _ =>
      apply measure_ok_inv in Hm; destruct Hm as (svg & Hq & Hbox & _)
  end.
  subst. do 3 step_ok H.
  inversion H; subst; clear H.
  cbn [res_width res_height res_format res_debugPath box_width box_height].
  exists svg. repeat split; auto; apply Math_ceil_max1_ge_1.
Qed.

Lemma second_variant_result_is_measured_extent_witness :
  exists res w',
    SecondVariant.renderSvgFullPage measured_env sized_svg no_options []
    = (Ok res, w')
    /\ res_width res = 121%Z /\ res_height res = 80%Z.
Proof.
  destruct (SecondVariant.renderSvgFullPage measured_env sized_svg no_options [])
    as [[res | e] w'] eqn:Hrun; [| vm_compute in Hrun; discriminate Hrun].
  exists res, w'. split; [reflexivity |].
  destruct (second_variant_result_is_measured_extent measured_env sized_svg
              no_options [] w' res Hrun) as (svg & Hq & Hw & Hh & _).
  vm_compute in Hq. inversion Hq; subst svg. rewrite Hw, Hh.
  split; vm_compute; reflexivity.
Defined.

(** X11: without [outputPath] the second variant writes no file at all,
    whether it succeeds or fails. *)
Theorem second_variant_leaves_no_file (E : Env) (svgString : string)
  (options : RenderOptions) (w w' : World) (r : Result RenderResult) :
  requested_path options = None ->
  SecondVariant.renderSvgFullPage E svgString options w = (r, w') ->
  forall ev, In ev w' ->
    In ev w \/ (forall p d, ev <> EvWriteFile p d) /\ (forall d, ev <> EvMkdir d).
Proof.
  unfold requested_path. intros Hnone Hrun ev Hin.
  assert (Hm : emits_only
                 (fun ev => (forall p d, ev <> EvWriteFile p d)
                            /\ (forall d, ev <> EvMkdir d))
                 (SecondVariant.renderSvgFullPage E svgString options)).
  { unfold SecondVariant.renderSvgFullPage.
    destruct (opt_outputPath options) as [p |].
    - destruct (str_truthy p); [discriminate Hnone |].
      emits; split; intros; discriminate.
    - emits; split; intros; discriminate. }
  destruct (Hm _ _ _ Hrun) as (mid & -> & F).
  apply in_app_or in Hin. destruct Hin as [Hin | Hin]; [| left; exact Hin].
  right. rewrite Forall_forall in F. exact (F _ Hin).
Qed.

Lemma second_variant_leaves_no_file_witness :
  exists res w',
    SecondVariant.renderSvgFullPage measured_env sized_svg no_options []
    = (Ok res, w')
    /\ forall p d, ~ In (EvWriteFile p d) w'.
Proof.
  destruct (SecondVariant.renderSvgFullPage measured_env sized_svg no_options [])
    as [[res | e] w'] eqn:Hrun; [| vm_compute in Hrun; discriminate Hrun].
  exists res, w'. split; [reflexivity |].
  intros p d Hin.
  destruct (second_variant_leaves_no_file measured_env sized_svg no_options
              [] w' (Ok res) eq_refl Hrun _ Hin) as [[] | [Hw _]].
  exact (Hw p d eq_refl).
Defined.

(** ** The dimension heuristic *)





(** ** The data URI helper *)

Lemma percent_free_tokens (s : string) :
  has_char "%" s = false ->
  exists ts, uri_tokens s = Some ts /\ utf8_check 0 0 0 ts = Some s.
Proof.
  induction s as [| c s IH]; cbn [has_char uri_tokens]; intros H.
  - exists []. auto.
  - apply orb_false_elim in H. destruct H as [Hc Hs]. rewrite Hc.
    destruct (IH Hs) as (ts & -> & Hcheck).
    exists (Lit c :: ts). split; [reflexivity |].
    cbn [utf8_check Nat.eqb option_map]. rewrite Hcheck. reflexivity.
Qed.

Lemma decodeURIComponent_percent_free (s : string) :
  has_char "%" s = false -> decodeURIComponent s = Some s.
Proof.
  intros H. unfold decodeURIComponent.
  destruct (percent_free_tokens s H) as (ts & -> & Hcheck). exact Hcheck.
Qed.

(** X13: from a data URI whose parameters and payload hold no comma, the
    payload is recovered: decoded when [decodeURIComponent] accepts it, as
    it stands when that throws; a payload without percent sign comes back
    unchanged. *)
Theorem comma_free_data_uri_is_unwrapped (params payload : string) :
  has_char "," params = false ->
  has_char "," payload = false ->
  svgDataUriToString ("data:image/svg+xml" ++ params ++ "," ++ payload)
  = match decodeURIComponent payload with
    | Some decoded => decoded
    | None => payload
    end
  /\ (has_char "%" payload = false ->
      svgDataUriToString ("data:image/svg+xml" ++ params ++ "," ++ payload)
      = payload).
Proof.
  intros Hparams Hpayload.
  assert (Hgen :
    svgDataUriToString ("data:image/svg+xml" ++ params ++ "," ++ payload)
    = match decodeURIComponent payload with
      | Some decoded => decoded
      | None => payload
      end).
  { unfold svgDataUriToString, startsWith.
    rewrite strip_prefix_app. cbn [negb].
    replace ("data:image/svg+xml" ++ params ++ "," ++ payload)
      with (("data:image/svg+xml" ++ params) ++ String "," payload)
      by (rewrite append_assoc; reflexivity).
    rewrite split_app_sep by exact Hparams.
    rewrite (split_no_sep _ _ Hpayload). reflexivity. }
  split; [exact Hgen |].
  intros Hraw. rewrite Hgen, (decodeURIComponent_percent_free _ Hraw).
  reflexivity.
Qed.

Lemma comma_free_data_uri_is_unwrapped_witness :
  svgDataUriToString
    ("data:image/svg+xml" ++ ";charset=utf-8" ++ "," ++ "%3Csvg%3E%3C/svg%3E")
  = "<svg></svg>"
  /\ svgDataUriToString
       ("data:image/svg+xml" ++ ";utf8" ++ "," ++ "<svg>100%</svg>")
     = "<svg>100%</svg>".
Proof.
  split.
  - destruct (comma_free_data_uri_is_unwrapped ";charset=utf-8"
                "%3Csvg%3E%3C/svg%3E" eq_refl eq_refl) as [H _].
    rewrite H. reflexivity.
  - destruct (comma_free_data_uri_is_unwrapped ";utf8" "<svg>100%</svg>"
                eq_refl eq_refl) as [H _].
    rewrite H. reflexivity.
Defined.

(** X14: a data URI without any comma is not left alone and has no payload
    to give: the result is the word [undefined]. *)
Theorem data_uri_without_comma_gives_undefined (rest : string) :
  has_char "," rest = false ->
  svgDataUriToString ("data:image/svg+xml" ++ rest) = "undefined".
Proof.
  intros Hrest. unfold svgDataUriToString, startsWith.
  rewrite strip_prefix_app. cbn [negb].
  rewrite split_no_sep by exact Hrest. reflexivity.
Qed.

Lemma data_uri_without_comma_gives_undefined_witness :
  svgDataUriToString ("data:image/svg+xml" ++ ";base64") = "undefined".
Proof.
  apply (data_uri_without_comma_gives_undefined ";base64"). reflexivity.
Defined.

(** ** The client *)

Lemma num_or_truthy (x : option JsNum) (d : JsNum) :
  num_truthy d = true -> num_truthy (num_or x d) = true.
Proof.
  intros Hd. unfold num_or. destruct x as [n |]; [| exact Hd].
  destruct (num_truthy n) eqn:Hn; [exact Hn | exact Hd].
Qed.

(** X15: the quality and the scale factor the client sends are never 0 and
    never [NaN]: a missing or falsy option is sent as its default, so a
    requested quality of 0 goes out as 1. *)
Theorem client_payload_is_never_falsy (svgString format : string)
  (options : FallbackOptions) :
  exists q d,
    obj_get "quality" (fallback_payload svgString format options)
    = Some (JNumber q)
    /\ obj_get "deviceScaleFactor" (fallback_payload svgString format options)
       = Some (JNumber d)
    /\ num_truthy q = true
    /\ num_truthy d = true
    /\ (fo_quality options = Some (Num 0) -> q = Num 1).
Proof.
  exists (num_or (fo_quality options) (Num 1)),
         (num_or (fo_deviceScaleFactor options) (Num 2)).
  split; [reflexivity |]. split; [reflexivity |].
  split; [apply num_or_truthy; reflexivity |].
  split; [apply num_or_truthy; reflexivity |].
  intros ->. reflexivity.
Qed.

Lemma client_request_passes (E : Env) (svgString format : string)
  (options : FallbackOptions) :
  str_truthy svgString = true ->
  includes supported_types (toLowerCase format) = true ->
  handler_outputType E
    (request_of_json (fallback_payload svgString format options))
  = toLowerCase format
  /\ passes_validation E
       (request_of_json (fallback_payload svgString format options)) svgString.
Proof.
  intros Hsvg Hfmt.
  assert (Hout : handler_outputType E
                   (request_of_json (fallback_payload svgString format options))
                 = toLowerCase format).
  { unfold handler_outputType, body_field, request_of_json, json_field.
    cbn [req_body body_outputType fallback_payload obj_get String.eqb
         Ascii.eqb Bool.eqb json_number truthy String_of].
    rewrite <- toLowerCase_truthy, (supported_type_not_empty _ Hfmt).
    reflexivity. }
  split; [exact Hout |].
  unfold passes_validation. rewrite Hout. repeat split; auto.
Qed.

(** The request of the client, followed through the handler. *)
Lemma fetch_through_handler (E : Env)
  (json_text : JsObject -> Buffer) (svgString format : string)
  (options : FallbackOptions) (w : World) :
  str_truthy svgString = true ->
  includes supported_types (toLowerCase format) = true ->
  let req := request_of_json (fallback_payload svgString format options) in
  opt_outputType (handler_options E req) = Some (toLowerCase format)
  /\ opt_timeout (handler_options E req) = Some (Num 30000)
  /\ fetchFallbackRender E (served_fetch E json_text) svgString (Some format)
       options w
     = match renderSvgFullPage E svgString (handler_options E req)
               (EvConsoleLog :: w) with
       | (Ok res, w1) => (Ok (res_buffer res), EvConsoleLog :: w1)
       | (Err e, w1) => (Err (client_error e), EvConsoleError :: w1)
       end.
Proof.
  intros Hsvg Hfmt req.
  destruct (client_request_passes E svgString format options Hsvg Hfmt)
    as [Hout Hvalid].
  fold req in Hout, Hvalid.
  split; [cbn [handler_options opt_outputType]; rewrite Hout; reflexivity |].
  split; [reflexivity |].
  unfold fetchFallbackRender, served_fetch, bind.
  cbn [fi_body]. fold req.
  rewrite (handler_renders E req svgString w Hvalid).
  destruct (renderSvgFullPage E svgString (handler_options E req)
              (EvConsoleLog :: w)) as [[res | e] w1]; [reflexivity |].
  unfold client_error, failure_text, ret, throw.
  cbn [error_response json_response fetch_view status body fr_ok fr_json
       fr_statusText Z.leb Z.compare Pos.compare Pos.compare_cont andb negb
       obj_get String.eqb Ascii.eqb Bool.eqb truthy String_of status_text
       Z.eqb Pos.eqb].
  destruct (str_truthy (err_message e)); reflexivity.
Qed.

(** X16: through a server that runs the handler, [fetchFallbackRender] for
    a non-empty markup and a supported format (in any letter case) gives
    what the render on the server gives: its buffer, or an error whose
    message is [Fallback render failed: ] followed by the message of the
    error thrown there (by the reason phrase when that message is empty).
    The server renders with the lower-cased format and, since the client
    sends no timeout, with the timeout 30000. *)
Theorem client_receives_render_outcome (E : Env)
  (json_text : JsObject -> Buffer) (svgString format : string)
  (options : FallbackOptions) (w : World) :
  str_truthy svgString = true ->
  includes supported_types (toLowerCase format) = true ->
  let req := request_of_json (fallback_payload svgString format options) in
  opt_outputType (handler_options E req) = Some (toLowerCase format)
  /\ opt_timeout (handler_options E req) = Some (Num 30000)
  /\ fetchFallbackRender E (served_fetch E json_text) svgString (Some format)
       options w
     = match renderSvgFullPage E svgString (handler_options E req)
               (EvConsoleLog :: w) with
       | (Ok res, w1) => (Ok (res_buffer res), EvConsoleLog :: w1)
       | (Err e, w1) => (Err (client_error e), EvConsoleError :: w1)
       end.
Proof.
  intros Hsvg Hfmt. exact (fetch_through_handler E json_text svgString format
                             options w Hsvg Hfmt).
Qed.

Lemma client_receives_render_outcome_witness :
  fetchFallbackRender measured_env (served_fetch measured_env no_json_text)
    sized_svg (Some "PNG") no_fallback_options []
  = (Ok png_signature,
     EvConsoleLog
     :: success_trace measured_env sized_svg
          (handler_options measured_env
             (request_of_json
                (fallback_payload sized_svg "PNG" no_fallback_options)))
          {| res_buffer := png_signature;
             res_width := 121;
             res_height := 80;
             res_format := "png";
             res_path := None;
             res_debugPath :=
               Some "/srv/dom-to-image/temp/png-2024-05-01T10-20-30-456Z.png" |}
     ++ [EvConsoleLog])%list.
Proof.
  destruct (client_receives_render_outcome measured_env no_json_text sized_svg
              "PNG" no_fallback_options [] eq_refl eq_refl) as (_ & _ & H).
  rewrite H. vm_compute. reflexivity.
Defined.

(** X17: an empty markup, or a format that is not empty and not supported,
    comes back to the client as an error whose message is
    [Fallback render failed: ] followed by the message of the handler, and
    the server has done nothing. *)
Theorem client_sees_validation_failure (E : Env)
  (json_text : JsObject -> Buffer) (svgString format : string)
  (options : FallbackOptions) (w : World) :
  svgString = EmptyString
  \/ (str_truthy format = true
      /\ includes supported_types (toLowerCase format) = false) ->
  exists msg,
    fetchFallbackRender E (served_fetch E json_text) svgString (Some format)
      options w
    = (Err (mkError "Error" ("Fallback render failed: " ++ msg)), w)
    /\ (msg = svg_required \/ msg = outputType_invalid).
Proof.
  intros Hbad.
  set (req := request_of_json (fallback_payload svgString format options)).
  assert (H400 : exists msg,
             render_handler E req w
             = (Ok (json_response 400 [("error", JString msg)]), w)
             /\ (msg = svg_required \/ msg = outputType_invalid)).
  { destruct Hbad as [-> | [Hf Hincl]].
    - exists svg_required. split; [| left; reflexivity].
      apply handler_without_svg. right. reflexivity.
    - eexists. split.
      + apply handler_unsupported_type.
        unfold handler_outputType, body_field, req, request_of_json, json_field.
        cbn [req_body body_outputType fallback_payload obj_get String.eqb
             Ascii.eqb Bool.eqb json_number truthy String_of].
        rewrite Hf. exact Hincl.
      + destruct (match handler_svg req with
                  | Some s => str_truthy s
                  | None => false
                  end); auto. }
  destruct H400 as (msg & Hrun & Hmsg). exists msg. split; [| exact Hmsg].
  unfold fetchFallbackRender, served_fetch, bind. cbn [fi_body]. fold req.
  rewrite Hrun. unfold ret, throw, failure_text.
  cbn [json_response fetch_view status body fr_ok fr_json fr_statusText
       Z.leb Z.compare Pos.compare Pos.compare_cont andb negb
       obj_get String.eqb Ascii.eqb Bool.eqb truthy String_of].
  destruct Hmsg as [-> | ->]; reflexivity.
Qed.

Lemma client_sees_validation_failure_witness :
  exists msg,
    fetchFallbackRender measured_env (served_fetch measured_env no_json_text)
      sized_svg (Some "gif") no_fallback_options []
    = (Err (mkError "Error" ("Fallback render failed: " ++ msg)), [])
    /\ (msg = svg_required \/ msg = outputType_invalid).
Proof.
  apply (client_sees_validation_failure measured_env no_json_text sized_svg
           "gif" no_fallback_options []).
  right. split; reflexivity.
Defined.

Lemma contains_unfold (p s : string) :
  contains p s
  = match strip_prefix p s with
    | Some _ => true
    | None =>
        match s with
        | EmptyString => false
        | String _ s' => contains p s'
        end
    end.
Proof. destruct s; reflexivity. Qed.

Lemma contains_iff (p s : string) : contains p s = true <-> substring p s.
Proof.
  unfold substring. split.
  - induction s as [| c s IH]; rewrite contains_unfold;
      destruct (strip_prefix p _) as [r |] eqn:Hp; intros H;
      try discriminate H;
      try (apply strip_prefix_some in Hp; exists EmptyString, r; exact Hp).
    destruct (IH H) as (a & b & ->). exists (String c a), b. reflexivity.
  - intros (a & b & ->). induction a as [| c a IH]; rewrite contains_unfold.
    + cbn [append]. rewrite strip_prefix_app. reflexivity.
    + destruct (strip_prefix p _); [reflexivity | exact IH].
Qed.

(** X18: [isSafari] answers yes exactly for the user agents that hold the
    word [Safari] and none of the words [Chrome], [Firefox], [Edge], [OPR],
    wherever in the string and in this letter case. *)
Theorem isSafari_iff (userAgent : string) :
  isSafari userAgent = true
  <-> substring "Safari" userAgent
      /\ ~ substring "Chrome" userAgent
      /\ ~ substring "Firefox" userAgent
      /\ ~ substring "Edge" userAgent
      /\ ~ substring "OPR" userAgent.
Proof.
  unfold isSafari. rewrite andb_true_iff, negb_true_iff, !orb_false_iff.
  rewrite <- !contains_iff, <- !not_true_iff_false. tauto.
Qed.

(** ** The handler *)

(** X19: whatever the request holds, the options the handler passes to the
    renderer are finite numbers, the scale factor and the timeout are above
    zero (2 and 30000 replace anything else), and [outputPath] is never
    set. *)
Theorem handler_options_are_sanitised (E : Env) (req : Request) :
  exists q d t,
    opt_quality (handler_options E req) = Some (Num q)
    /\ opt_deviceScaleFactor (handler_options E req) = Some (Num d)
    /\ (0 < d)%Q
    /\ opt_timeout (handler_options E req) = Some (Num t)
    /\ (0 < t)%Q
    /\ opt_outputPath (handler_options E req) = None.
Proof.
  unfold handler_options.
  cbn [opt_quality opt_deviceScaleFactor opt_timeout opt_outputPath].
  destruct (parsed_number E req body_quality) as [q | | |];
    destruct (parsed_number E req body_deviceScaleFactor) as [d | | |];
    destruct (parsed_number E req body_timeout) as [t | | |];
    cbn [Number_isFinite num_gt0 andb];
    try destruct (Z.ltb_spec 0 (Qnum d));
    try destruct (Z.ltb_spec 0 (Qnum t));
    eexists _, _, _;
    repeat (split; [reflexivity |]);
    repeat (split; [first [reflexivity | unfold Qlt; cbn; lia] |]);
    first [reflexivity | unfold Qlt; cbn; lia].
Qed.



(** The file-system effects of the handler, for any request. *)
Lemma handler_file_effects (E : Env) (req : Request) :
  emits_only (dump_only E req) (render_handler E req).
Proof.
  unfold render_handler. apply emits_try_catch.
  - destruct (handler_svg req) as [svgText |]; [| apply emits_ret].
    destruct (negb (str_truthy svgText)); [apply emits_ret |].
    destruct (negb (includes supported_types (handler_outputType E req)))
      eqn:Htype; [apply emits_ret |].
    apply emits_bind; [apply emits_emit; exact I | intros _].
    apply emits_bind; [| intros res; emits; exact I].
    eapply emits_only_weaken; [| apply render_file_effects].
    apply negb_false_iff in Htype.
    intros [] Hev; cbn in *; try exact I; try exact Hev.
    rewrite (supported_type_not_empty _ Htype) in Hev.
    destruct Hev as [Hev | Hev]; [discriminate Hev | exact Hev].
  - intros e. emits; exact I.
Qed.

(** X21: whatever the request holds, the only files the handler can write
    are the two dumps under the [temp] directory: a request has no means to
    name a file to be written. *)
Theorem handler_touches_only_the_dumps (E : Env) (req : Request)
  (w w' : World) (r : Result Response) :
  render_handler E req w = (r, w') ->
  forall p d,
    In (EvWriteFile p d) w' ->
    In (EvWriteFile p d) w
    \/ p = htmlPath E
    \/ p = debugPath E (handler_outputType E req).
Proof.
  intros Hrun p d Hin.
  destruct (handler_file_effects E req _ _ _ Hrun) as (mid & -> & F).
  apply in_app_or in Hin. destruct Hin as [Hin | Hin]; [| left; exact Hin].
  rewrite Forall_forall in F. specialize (F _ Hin). cbn in F. right. exact F.
Qed.

Lemma handler_touches_only_the_dumps_witness :
  exists resp w',
    render_handler measured_env (json_request (Some sized_svg) JUndefined) []
    = (Ok resp, w')
    /\ forall p d,
        In (EvWriteFile p d) w' ->
        p = htmlPath measured_env \/ p = debugPath measured_env "png".
Proof.
  destruct (render_handler measured_env
              (json_request (Some sized_svg) JUndefined) [])
    as [[resp | e] w'] eqn:Hrun; [| vm_compute in Hrun; discriminate Hrun].
  exists resp, w'. split; [reflexivity |].
  intros p d Hin.
  destruct (handler_touches_only_the_dumps measured_env
              (json_request (Some sized_svg) JUndefined) [] w' (Ok resp)
              Hrun p d Hin) as [[] | H].
  exact H.
Defined.

(** ** [mergeDefaults] *)







(** ** From the snapshot to the image *)

(** X23: when the snapshot producer rejects, [safariRenderToBlob] rejects
    with the same error and sends nothing.  When it answers with a data URI
    whose parameters hold no comma and whose payload is non-empty markup
    without comma and percent sign, the outcome is that of the render of
    this payload on the server: its buffer, or the error reported by the
    client. *)
Theorem snapshot_reaches_the_renderer (E : Env)
  (json_text : JsObject -> Buffer) (toSvgFunc : FallbackOptions -> M string)
  (params payload format : string) (options : FallbackOptions)
  (w w0 : World) :
  has_char "," params = false ->
  has_char "," payload = false ->
  has_char "%" payload = false ->
  str_truthy payload = true ->
  includes supported_types (toLowerCase format) = true ->
  (forall e, toSvgFunc options w = (Err e, w0) ->
             safariRenderToBlob E (served_fetch E json_text) toSvgFunc
               (Some format) options w = (Err e, w0))
  /\ (toSvgFunc options w
      = (Ok ("data:image/svg+xml" ++ params ++ "," ++ payload), w0) ->
      safariRenderToBlob E (served_fetch E json_text) toSvgFunc (Some format)
        options w
      = match renderSvgFullPage E payload
                (handler_options E
                   (request_of_json (fallback_payload payload format options)))
                (EvConsoleLog :: w0) with
        | (Ok res, w1) => (Ok (res_buffer res), EvConsoleLog :: w1)
        | (Err e, w1) => (Err (client_error e), EvConsoleError :: w1)
        end).
Proof.
  intros Hparams Hcomma Hpercent Hsvg Hfmt. split.
  - intros e Hsnap. unfold safariRenderToBlob, bind at 1. rewrite Hsnap.
    reflexivity.
  - intros Hsnap. unfold safariRenderToBlob, bind at 1. rewrite Hsnap.
    rewrite (comma_free_payload_is_recovered params payload Hparams Hcomma).
    rewrite (decodeURIComponent_percent_free payload Hpercent).
    unfold bind at 1.
    destruct (fetch_through_handler E json_text payload format options w0
                Hsvg Hfmt) as (_ & _ & ->).
    destruct (renderSvgFullPage E payload _ (EvConsoleLog :: w0))
      as [[res | e] w1]; reflexivity.
Qed.

Lemma snapshot_reaches_the_renderer_witness :
  exists w',
    safariRenderToBlob measured_env (served_fetch measured_env no_json_text)
      sized_snapshot (Some "png") no_fallback_options []
    = (Ok png_signature, w').
Proof.
  destruct (snapshot_reaches_the_renderer measured_env no_json_text
              sized_snapshot ";charset=utf-8" sized_svg "png"
              no_fallback_options [] [] eq_refl eq_refl eq_refl eq_refl
              eq_refl) as [_ H].
  rewrite (H eq_refl). eexists. vm_compute. reflexivity.
Defined.
